(** * msgraph-async: the OData query builder and the Graph client

    A shallow embedding of [msgraph_async/common/odata_query.py] and of the
    request pipeline of [msgraph_async/client/client.py].

    Conventions.
    - A Python [str] is a [string].  On ASCII text [str.lower] is the map on
      the letters [A]..[Z]; what it does to other characters is not modelled
      ([Str.lower_text]).
    - A Python [int] is a [Z].
    - A call that may raise returns a [result]: [Ok v] for a returned value,
      [Raise e] for a raised exception, and [NotModelled] where Python would
      go on with a text this development does not fix (the [repr] of a
      container, of an enum member, or of an object printed by its address,
      the lower case of a text outside ASCII, the digits of an int beyond
      the conversion limit, an attribute of an object of a foreign type).
    - Stateful code of the client threads the client object and the world
      (the HTTP session and the log) explicitly. *)

From Stdlib Require Import ZArith String Ascii List DecimalString Lia.
From stdpp Require Import base strings gmap list.

Open Scope Z_scope.

(** ** Python values *)

(** A decoded JSON document, as [aiohttp]'s [resp.json()] returns it.  An
    object lists its members in insertion order, with distinct keys.
    Numbers with a fraction are left out. *)
#[warnings="-register-all"] Inductive json :=
| JNull
| JBool (b : bool)
| JNum (n : Z)
| JStr (s : string)
| JArr (items : list json)
| JObj (members : list (string * json)).

(** What [_request] binds to [r]: the decoded JSON body or the raw bytes. *)
Inductive payload :=
| PJson (j : json)
| PBytes (b : string).

(** Headers of a response: [aiohttp]'s case-insensitive multi-dict, as the
    list of its (name, value) pairs. *)
Definition resp_headers := list (string * string).

(** Modelled from the spec: the error kinds of [common/exceptions.py], which
    is not among the sources.  Section 7 of the spec names them: 401 is
    unauthorized, 403 forbidden, 404 not-found, 429 throttled, 5xx
    server-error, and every unmapped code is the generic unknown API error
    (this last one is [UnknownError] in [client.py]). *)
Inductive error_kind :=
| Unauthorized
| Forbidden
| NotFound
| Throttled
| ServerError
| UnknownError.

(** Exceptions.  [GraphClientException] is raised with a message or with the
    exception it wraps. *)
Inductive exn :=
| ValueError (msg : string)
| AttributeError (msg : string)
| TypeError (msg : string)
| KeyError (key : string)
| Exception (msg : string)
| ClientError (msg : string)
| ApiError (kind : error_kind) (r : payload) (headers : resp_headers)
| GraphClientException (msg : string)
| GraphClientExceptionFrom (cause : exn).

Inductive result (A : Type) :=
| Ok (a : A)
| Raise (e : exn)
| NotModelled.

Arguments Ok {A} a.
Arguments Raise {A} e.
Arguments NotModelled {A}.

Definition bind {A B} (m : result A) (k : A -> result B) : result B :=
  match m with
  | Ok a => k a
  | Raise e => Raise e
  | NotModelled => NotModelled
  end.

Notation "x <- m ;; k" := (bind m (fun x => k))
  (at level 100, m at next level, right associativity).

(** ** Strings *)

Module Str.

(** [c.lower()] on one ASCII character. *)
Definition lower_ascii (c : ascii) : ascii :=
  let n := nat_of_ascii c in
  if (Nat.leb 65 n && Nat.leb n 90)%bool then ascii_of_nat (n + 32) else c.

(** [s.lower()] for an ASCII text [s].  It is used as it stands where the
    text is a constant of the program ([str(True)], a connector's name) and
    where the result is only compared with [bearer] or with
    [content-type]: no character outside ASCII is lower-cased to a letter
    of these words. *)
Fixpoint lower (s : string) : string :=
  match s with
  | EmptyString => EmptyString
  | String c s' => String (lower_ascii c) (lower s')
  end.

(** The characters below 128. *)
Definition is_ascii_char (c : ascii) : bool :=
  match c with Ascii _ _ _ _ _ _ _ b7 => negb b7 end.

Fixpoint is_ascii (s : string) : bool :=
  match s with
  | EmptyString => true
  | String c s' => is_ascii_char c && is_ascii s'
  end.

(** [s.lower()] for a text [s] of the caller: Python follows the Unicode
    case tables, which are modelled on ASCII only. *)
Definition lower_text (s : string) : result string :=
  if is_ascii s then Ok (lower s) else NotModelled.

(** [s.startswith(p)] *)
Definition startswith (s p : string) : bool := String.prefix p s.

(** [sep.join(l)] *)
Definition join (sep : string) (l : list string) : string := String.concat sep l.

(** [p in s] on strings: [p] occurs in [s]. *)
Fixpoint contains (p s : string) : bool :=
  if String.prefix p s then true
  else match s with
       | EmptyString => false
       | String _ s' => contains p s'
       end.

(** The decimal text of an int. *)
Definition of_Z (n : Z) : string := NilZero.string_of_int (Z.to_int n).

(** The number of decimal digits of an int. *)
Definition digits (n : Z) : nat := String.length (of_Z (Z.abs n)).

(** [str(n)] for an int.  Python 3.11 and later refuse, with a
    [ValueError], to convert an int of more than 4300 digits unless the
    limit is changed; earlier versions convert it.  Such an int is not
    modelled. *)
Definition str_int (n : Z) : result string :=
  if Nat.leb (digits n) 4300 then Ok (of_Z n) else NotModelled.

(** [str(b)] for a bool. *)
Definition of_bool (b : bool) : string := if b then "True" else "False".

End Str.

(** Truth value testing: what [if x:] and [not x] look at. *)
Class Truth (A : Type) := truthy : A -> bool.

#[export] Instance bool_truth : Truth bool := fun b => b.
#[export] Instance Z_truth : Truth Z := fun n => negb (n =? 0).
#[export] Instance string_truth : Truth string :=
  fun s => match s with EmptyString => false | _ => true end.
#[export] Instance list_truth {A} : Truth (list A) :=
  fun l => match l with [] => false | _ => true end.
(** [None] is false; a value is tested by its own rule. *)
#[export] Instance option_truth {A} `{Truth A} : Truth (option A) :=
  fun o => match o with None => false | Some a => truthy a end.

(** ** common/odata_query.py *)

Module OData.

(** [class LogicalOperator(int, Enum)]: a value and a template each. *)
Inductive LogicalOperator := EQ | NE | LT | GT | LE | GE | STARTS_WITH | ENDS_WITH.

Definition LogicalOperator_value (o : LogicalOperator) : Z :=
  match o with
  | EQ => 1 | NE => 2 | LT => 3 | GT => 4
  | LE => 5 | GE => 6 | STARTS_WITH => 7 | ENDS_WITH => 8
  end.

Definition template (o : LogicalOperator) : string :=
  match o with
  | EQ => "{attribute} eq {val}"
  | NE => "{attribute} ne {val}"
  | LT => "{attribute} lt {val}"
  | GT => "{attribute} gt {val}"
  | LE => "{attribute} le {val}"
  | GE => "{attribute} ge {val}"
  | STARTS_WITH => "startsWith({attribute}, {val})"
  | ENDS_WITH => "endsWith({attribute}, {val})"
  end.

(** [class LogicalConnector(int, Enum)] *)
Inductive LogicalConnector := AND | OR.

Definition LogicalConnector_value (c : LogicalConnector) : Z :=
  match c with AND => 1 | OR => 2 end.

(** The [name] of a member. *)
Definition name (c : LogicalConnector) : string :=
  match c with AND => "AND" | OR => "OR" end.

(** The values a caller can hand to a constructor or a setter.  A
    [Constrain] keeps whatever it was given; a [Filter] keeps what its
    setters let through. *)
#[warnings="-register-all"] Inductive pyval :=
| PyNone
| PyBool (b : bool)
| PyInt (n : Z)
| PyStr (s : string)
| PyList (l : list pyval)
| PyLogicalOperator (o : LogicalOperator)
| PyLogicalConnector (c : LogicalConnector)
| PyConstrain (c : Constrain)
| PyFilter (f : Filter)
| PyOther (type_name : string)
with Constrain :=
| Build_Constrain (attribute logical_operator value : pyval)
with Filter :=
| Build_Filter (constrains : option (list Constrain))
               (logical_connector : option LogicalConnector).

Definition _attribute (c : Constrain) : pyval :=
  match c with Build_Constrain a _ _ => a end.
Definition _logical_operator (c : Constrain) : pyval :=
  match c with Build_Constrain _ o _ => o end.
Definition _value (c : Constrain) : pyval :=
  match c with Build_Constrain _ _ v => v end.
Definition _constrains (f : Filter) : option (list Constrain) :=
  match f with Build_Filter cs _ => cs end.
Definition _logical_connector (f : Filter) : option LogicalConnector :=
  match f with Build_Filter _ c => c end.

(** [type(value)] *)
Inductive pytype :=
| TNoneType | TBool | TInt | TStr | TList
| TLogicalOperator | TLogicalConnector | TConstrain | TFilter
| TOther (type_name : string).

Definition type (v : pyval) : pytype :=
  match v with
  | PyNone => TNoneType
  | PyBool _ => TBool
  | PyInt _ => TInt
  | PyStr _ => TStr
  | PyList _ => TList
  | PyLogicalOperator _ => TLogicalOperator
  | PyLogicalConnector _ => TLogicalConnector
  | PyConstrain _ => TConstrain
  | PyFilter _ => TFilter
  | PyOther t => TOther t
  end.

(** A [Filter] object has neither [__bool__] nor [__len__]: it is true. *)
#[export] Instance Filter_truth : Truth Filter := fun _ => true.

(** [format(v, '')], the text [str.format] puts in place of a field. *)
Definition format_value (v : pyval) : result string :=
  match v with
  | PyNone => Ok "None"
  | PyBool b => Ok (Str.of_bool b)
  | PyInt n => Str.str_int n
  | PyStr s => Ok s
  | _ => NotModelled
  end.

(** [str.format] with keyword arguments, for templates whose fields are plain
    names: the text outside the braces is copied, each [{name}] is
    replaced by the formatted argument of that name, and nothing in the
    arguments is read again.  [field] is the name being read, if any. *)
Fixpoint format_from (kwargs : list (string * pyval)) (field : option string)
         (t : string) : result string :=
  match t, field with
  | EmptyString, None => Ok ""
  | EmptyString, Some _ => Raise (ValueError "expected '}' before end of string")
  | String c t', None =>
      if Ascii.eqb c "{" then format_from kwargs (Some "") t'
      else if Ascii.eqb c "}" then
        Raise (ValueError "Single '}' encountered in format string")
      else r <- format_from kwargs None t';; Ok (String c r)
  | String c t', Some n =>
      if Ascii.eqb c "}" then
        match List.find (fun kv => String.eqb (fst kv) n) kwargs with
        | Some kv =>
            v <- format_value (snd kv);;
            r <- format_from kwargs None t';;
            Ok (v +:+ r)
        | None => Raise (KeyError n)
        end
      else format_from kwargs (Some (n +:+ String c "")) t'
  end.

Definition format (t : string) (kwargs : list (string * pyval)) : result string :=
  format_from kwargs None t.

(** [Constrain.__init__]: the three arguments are stored as they come. *)
Definition Constrain___init__ (attribute logical_operator value : pyval)
  : result Constrain :=
  Ok (Build_Constrain attribute logical_operator value).

(** [Constrain.__str__].  The built-in types and the classes of this module
    have no [template] attribute; an object of another type may have one,
    and what its [format] returns is then not modelled. *)
Definition Constrain___str__ (self : Constrain) : result string :=
  match _logical_operator self with
  | PyLogicalOperator o =>
      format (template o) [("attribute", _attribute self); ("val", _value self)]
  | PyNone => Raise (AttributeError "'NoneType' object has no attribute 'template'")
  | PyBool _ => Raise (AttributeError "'bool' object has no attribute 'template'")
  | PyInt _ => Raise (AttributeError "'int' object has no attribute 'template'")
  | PyStr _ => Raise (AttributeError "'str' object has no attribute 'template'")
  | PyList _ => Raise (AttributeError "'list' object has no attribute 'template'")
  | PyLogicalConnector _ =>
      Raise (AttributeError "'LogicalConnector' object has no attribute 'template'")
  | PyConstrain _ =>
      Raise (AttributeError "'Constrain' object has no attribute 'template'")
  | PyFilter _ => Raise (AttributeError "'Filter' object has no attribute 'template'")
  | PyOther _ => NotModelled
  end.

(** [Filter.__init__] *)
Definition Filter___init__ : Filter := Build_Filter None None.

(** The loop of the [constrains] setter: the first element that is not a
    [Constrain] stops it. *)
Fixpoint all_constrains (value : list pyval) : result (list Constrain) :=
  match value with
  | [] => Ok []
  | val :: rest =>
      match val with
      | PyConstrain c => cs <- all_constrains rest;; Ok (c :: cs)
      | _ => Raise (ValueError "all values must be constrains")
      end
  end.

(** [Filter.constrains = value] *)
Definition Filter_set_constrains (self : Filter) (value : pyval) : result Filter :=
  match value with
  | PyList l =>
      cs <- all_constrains l;;
      Ok (Build_Filter (Some cs) (_logical_connector self))
  | _ => Raise (ValueError "constrains must be list")
  end.

(** [Filter.logical_connector = value] *)
Definition Filter_set_logical_connector (self : Filter) (value : pyval)
  : result Filter :=
  match value with
  | PyLogicalConnector c => Ok (Build_Filter (_constrains self) (Some c))
  | _ => Raise (ValueError "logical connector must be of type LogicalConnector")
  end.

(** [class ODataQuery]: each attribute is [None] until its setter stores
    a checked value.  The record holds the filter and the list as they are
    when a method runs. *)
Record ODataQuery := {
  _count : option bool;
  _expand : option string;
  _filter : option Filter;
  _select : option (list string);
  _top : option Z
}.

(** [ODataQuery.__init__] *)
Definition ODataQuery___init__ : ODataQuery :=
  {| _count := None; _expand := None; _filter := None;
     _select := None; _top := None |}.

(** [ODataQuery.count = value] *)
Definition set_count (self : ODataQuery) (value : pyval) : result ODataQuery :=
  match value with
  | PyBool b =>
      Ok {| _count := Some b; _expand := _expand self; _filter := _filter self;
            _select := _select self; _top := _top self |}
  | _ => Raise (ValueError "count must be boolean")
  end.

(** [ODataQuery.expand = value] *)
Definition set_expand (self : ODataQuery) (value : pyval) : result ODataQuery :=
  match value with
  | PyStr s =>
      Ok {| _count := _count self; _expand := Some s; _filter := _filter self;
            _select := _select self; _top := _top self |}
  | _ => Raise (ValueError "expand must be string")
  end.

(** [ODataQuery.filter = value] *)
Definition set_filter (self : ODataQuery) (value : pyval) : result ODataQuery :=
  match value with
  | PyFilter f =>
      Ok {| _count := _count self; _expand := _expand self; _filter := Some f;
            _select := _select self; _top := _top self |}
  | _ => Raise (ValueError "filter must of Filter type")
  end.

(** The loop of the [select] setter. *)
Fixpoint all_strings (value : list pyval) : result (list string) :=
  match value with
  | [] => Ok []
  | val :: rest =>
      match val with
      | PyStr s => ss <- all_strings rest;; Ok (s :: ss)
      | _ => Raise (ValueError "all values should be strings")
      end
  end.

(** [ODataQuery.select = value] *)
Definition set_select (self : ODataQuery) (value : pyval) : result ODataQuery :=
  match value with
  | PyList l =>
      ss <- all_strings l;;
      Ok {| _count := _count self; _expand := _expand self; _filter := _filter self;
            _select := Some ss; _top := _top self |}
  | _ => Raise (ValueError "select must be list of strings")
  end.

(** [ODataQuery.top = value]; [type(True)] is [bool], not [int]. *)
Definition set_top (self : ODataQuery) (value : pyval) : result ODataQuery :=
  match value with
  | PyInt n =>
      Ok {| _count := _count self; _expand := _expand self; _filter := _filter self;
            _select := _select self; _top := Some n |}
  | _ => Raise (ValueError "top must be integer")
  end.

(** The body of the loop of [_build_filter], from the text [res] built so
    far.  The connector is read only when [res] is not empty. *)
Fixpoint _build_filter_loop (connector : option LogicalConnector)
         (constrains : list Constrain) (res : string) : result string :=
  match constrains with
  | [] => Ok res
  | constrain :: rest =>
      res <- (if truthy res then
                match connector with
                | Some c => Ok (res +:+ " " +:+ Str.lower (name c) +:+ " ")
                | None =>
                    Raise (AttributeError "'NoneType' object has no attribute 'name'")
                end
              else Ok res);;
      s <- Constrain___str__ constrain;;
      _build_filter_loop connector rest (res +:+ s)
  end.

(** [ODataQuery._build_filter] *)
Definition _build_filter (self : ODataQuery) : result string :=
  match _filter self with
  | None => Raise (AttributeError "'NoneType' object has no attribute 'constrains'")
  | Some f =>
      match _constrains f with
      | None => Raise (TypeError "'NoneType' object is not iterable")
      | Some cs => _build_filter_loop (_logical_connector f) cs ""
      end
  end.

Definition EMPTY_QUERY : string := "EMPTY OPEN DATA QUERY".

(** [self.filter and self.filter.constrains], as a truth value. *)
Definition filter_and_constrains (self : ODataQuery) : bool :=
  match _filter self with
  | None => false
  | Some f => truthy f && truthy (_constrains f)
  end.

(** [ODataQuery.__str__] *)
Definition ODataQuery___str__ (self : ODataQuery) : result string :=
  if negb (truthy (_count self)) && negb (truthy (_expand self))
     && negb (truthy (_filter self)) && negb (truthy (_select self))
     && negb (truthy (_top self))
  then Ok EMPTY_QUERY
  else
    let res := [] in
    let res :=
      match _count self with
      | Some count =>
          if truthy count
          then res ++ ["$count=" +:+ Str.lower (Str.of_bool count)] else res
      | None => res
      end in
    res <- match _expand self with
           | Some expand =>
               if truthy expand
               then e <- Str.lower_text expand;; Ok (res ++ ["$expand=" +:+ e])
               else Ok res
           | None => Ok res
           end;;
    res <- (if filter_and_constrains self
            then f <- _build_filter self;; Ok (res ++ ["$filter=" +:+ f])
            else Ok res);;
    let res :=
      match _select self with
      | Some select =>
          if truthy select then res ++ ["$select=" +:+ Str.join "," select] else res
      | None => res
      end in
    res <- match _top self with
           | Some top =>
               if truthy top
               then t <- Str.str_int top;; Ok (res ++ ["$top=" +:+ t])
               else Ok res
           | None => Ok res
           end;;
    Ok ("?" +:+ Str.join "&" res).

End OData.

(** ** client/client.py *)

(** Truth of a decoded JSON value, which is a Python value: [None], [False],
    zero and the empty string, list and dict are false. *)
#[export] Instance json_truth : Truth json :=
  fun j => match j with
           | JNull => false
           | JBool b => b
           | JNum n => truthy n
           | JStr s => truthy s
           | JArr items => truthy items
           | JObj members => truthy members
           end.

(** A dict of request headers is true when it is not empty. *)
#[export] Instance headers_truth : Truth (gmap string string) :=
  fun h => negb (bool_decide (h = ∅)).

Module Client.
Import OData.

(** The constants of [common/constants.py], which is not among the
    sources: the development takes them as parameters. *)
Class Constants := {
  GRAPH_BASE_URL : string;
  V1_EP : string;
  USERS : string;
  MAILS : string;
  NEXT_KEY : string
}.

(** The members of [HTTPStatus] that [_request] names.  The enumeration
    reaches [client.py] through [constants.py]; its codes are those of the
    standard library. *)
Definition OK : Z := 200.
Definition CREATED : Z := 201.
Definition NO_CONTENT : Z := 204.

(** Modelled from the spec: the table [status2exception] of
    [common/exceptions.py], which is not among the sources.  Section 7 of
    the spec gives its entries; [None] is a code the table does not
    hold. *)
Definition status2exception (status : Z) : option error_kind :=
  if status =? 401 then Some Unauthorized
  else if status =? 403 then Some Forbidden
  else if status =? 404 then Some NotFound
  else if status =? 429 then Some Throttled
  else if (500 <=? status) && (status <=? 599) then Some ServerError
  else None.

(** [status2exception.get(status, UnknownError)] *)
Definition exception_for (status : Z) : error_kind :=
  default UnknownError (status2exception status).

(** *** The HTTP session *)

Inductive body :=
| Form (fields : list (string * string))
| Text (s : string).

Record request := {
  method : string;
  url : string;
  headers : option (gmap string string);
  data : option body
}.

(** A response, by what the code reads of it: [resp.status],
    [resp.headers], what awaiting [resp.json()] gives (a decoded body, or
    the exception of a body that does not decode) and the bytes
    [resp.read()] gives. *)
Record response := {
  status : Z;
  resp_hdrs : resp_headers;
  json_body : result json;
  read_body : string
}.

Record log_record := {
  level : Z;
  msg : string;
  about : option exn
}.

(** The world outside the client: the responses the session is still to
    receive, in order, the requests sent so far and the log. *)
Record world := {
  pending : list response;
  sent : list request;
  log : list log_record
}.

(** [AsyncIOScheduler]: its jobs and whether it was started. *)
Record job := {
  job_args : string * string * string;
  seconds : Z
}.

Record scheduler := {
  jobs : list job;
  running : bool
}.

(** [class GraphClient].  [_token] is [None] (here [JNull]) or whatever the
    token endpoint sent as [access_token]. *)
Record GraphClient := {
  _token : json;
  _managed : bool;
  _token_refresh_interval_sec : Z;
  _scheduler : scheduler;
  _enable_logging : bool
}.

(** [GraphClient.__init__] *)
Definition GraphClient___init__ (enable_logging : bool) : GraphClient :=
  {| _token := JNull; _managed := false; _token_refresh_interval_sec := 3300;
     _scheduler := {| jobs := []; running := false |};
     _enable_logging := enable_logging |}.

(** *** The monad of the client's methods: the client object and the world
    are threaded, and a raise keeps the state reached so far. *)

Record state := { self : GraphClient; env : world }.

Definition M (A : Type) : Type := state -> result A * state.

Definition ret {A} (a : A) : M A := fun s => (Ok a, s).
Definition raise {A} (e : exn) : M A := fun s => (Raise e, s).
Definition lift {A} (r : result A) : M A := fun s => (r, s).
Definition bindM {A B} (m : M A) (k : A -> M B) : M B :=
  fun s => match m s with
           | (Ok a, s') => k a s'
           | (Raise e, s') => (Raise e, s')
           | (NotModelled, s') => (NotModelled, s')
           end.
(** [try: m except Exception as e: h e] *)
Definition try_except {A} (m : M A) (h : exn -> M A) : M A :=
  fun s => match m s with
           | (Raise e, s') => h e s'
           | r => r
           end.
Definition get_self : M GraphClient := fun s => (Ok (self s), s).
Definition put_self (c : GraphClient) : M unit :=
  fun s => (Ok tt, {| self := c; env := env s |}).

Notation "x <~ m ;; k" := (bindM m (fun x => k))
  (at level 100, m at next level, right associativity).
Notation "m ;;; k" := (bindM m (fun _ => k))
  (at level 100, right associativity).

(** [self._session.request(method, url, headers=headers, data=data)]:
    the request is sent and the next response comes back; with no response
    left the connection fails. *)
Definition session_request (req : request) : M response :=
  fun s =>
    let w := env s in
    match pending w with
    | [] =>
        (Raise (ClientError "Cannot connect to host"),
         {| self := self s;
            env := {| pending := []; sent := sent w ++ [req]; log := log w |} |})
    | resp :: rest =>
        (Ok resp,
         {| self := self s;
            env := {| pending := rest; sent := sent w ++ [req]; log := log w |} |})
    end.

(** [resp.headers[key]]: names compare without case, the first match is
    the value, and a missing name is a [KeyError]. *)
Definition headers_getitem (h : resp_headers) (key : string) : result string :=
  match List.find (fun kv => String.eqb (Str.lower (fst kv)) (Str.lower key)) h with
  | Some kv => Ok (snd kv)
  | None => Raise (KeyError key)
  end.

(** [self._log(level, msg)] *)
Definition INFO : Z := 20.
Definition ERROR : Z := 40.

Definition _log (lvl : Z) (text : string) (e : option exn) : M unit :=
  fun s =>
    if _enable_logging (self s) then
      let w := env s in
      (Ok tt,
       {| self := self s;
          env := {| pending := pending w; sent := sent w;
                    log := log w ++ [{| level := lvl; msg := text; about := e |}] |} |})
    else (Ok tt, s).

(** *** Properties and static methods *)

(** [token_refresh_interval_sec = value] *)
Definition set_token_refresh_interval_sec (value : Z) : M unit :=
  if (value <? 60) || (value >? 3600) then
    raise (ValueError "refresh interval must be between 60 and 3600 seconds")
  else
    c <~ get_self;;
    put_self {| _token := _token c; _managed := _managed c;
                _token_refresh_interval_sec := value;
                _scheduler := _scheduler c;
                _enable_logging := _enable_logging c |}.

(** [_build_url(version, resources, odata_query=...)] *)
Fixpoint add_resources (url : string) (resources : list (string * option string))
  : string :=
  match resources with
  | [] => url
  | (resource, resource_id) :: rest =>
      let url := url +:+ resource in
      let url :=
        match resource_id with
        | Some id => if truthy id then url +:+ "/" +:+ id else url
        | None => url
        end in
      add_resources url rest
  end.

Definition _build_url `{Constants} (version : string)
           (resources : list (string * option string))
           (odata_query : option ODataQuery) : result string :=
  let url := add_resources (GRAPH_BASE_URL +:+ version) resources in
  match odata_query with
  | Some q => s <- ODataQuery___str__ q;; Ok (url +:+ s)
  | None => Ok url
  end.

(** [_build_auth_header(token)] *)
Definition _build_auth_header (token : json) : result (gmap string string) :=
  match token with
  | JStr token =>
      if Str.startswith (Str.lower token) "bearer"
      then Ok {[ "authorization" := token ]}
      else Ok {[ "authorization" := "bearer " +:+ token ]}
  | _ => Raise (AttributeError "object has no attribute 'lower'")
  end.

(** *** Keyword arguments of the endpoint methods

    The keys the client reads: [token], [extra_headers],
    [expected_statuses] and [odata_query] come from the caller,
    [_req_headers] is added by [authorized].  A key that is absent is
    [None]. *)
Record kwargs := {
  token : option string;
  extra_headers : option (gmap string string);
  expected_statuses : option (list Z);
  odata_query : option ODataQuery;
  _req_headers : option (gmap string string)
}.

Definition with_req_headers (kw : kwargs) (h : gmap string string) : kwargs :=
  {| token := token kw; extra_headers := extra_headers kw;
     expected_statuses := expected_statuses kw; odata_query := odata_query kw;
     _req_headers := Some h |}.

(** [kwargs["token"] if kwargs.get("token") else client._token] *)
Definition choose_token (client : GraphClient) (kw : kwargs) : json :=
  match token kw with
  | Some t => if truthy t then JStr t else _token client
  | None => _token client
  end.

(** The headers [authorized] builds: the authorization header, then
    [update] with the content type, then [update] with the caller's
    headers when there are any.  [update] lets the new entries win. *)
Definition request_headers (client : GraphClient) (kw : kwargs)
  : result (gmap string string) :=
  h <- _build_auth_header (choose_token client kw);;
  let h := <[ "Content-type" := "application/json" ]> h in
  match extra_headers kw with
  | Some extra => if truthy extra then Ok (extra ∪ h) else Ok h
  | None => Ok h
  end.

(** The decorator [authorized], applied to [func]. *)
Definition authorized {A} (func : kwargs -> M A) (kw : kwargs) : M A :=
  client <~ get_self;;
  if negb (truthy (_token client)) && negb (truthy (token kw)) then
    raise (Exception "Token is not managed so you must explicitly provide it")
  else
    h <~ lift (request_headers client kw);;
    func (with_req_headers kw h).

(** *** Requests *)

(** The payload of a response: JSON when the content type says so. *)
Definition read_payload (resp : response) : result payload :=
  ct <- headers_getitem (resp_hdrs resp) "Content-Type";;
  if Str.contains "application/json" ct
  then j <- json_body resp;; Ok (PJson j)
  else Ok (PBytes (read_body resp)).

Definition DEFAULT_EXPECTED : list Z := [OK; NO_CONTENT; CREATED].

(** [_request(method, url, headers, data, expected_statuses)] *)
Definition _request (method_ url_ : string) (headers_ : option (gmap string string))
           (data_ : option body) (expected : option (list Z)) : M (payload * Z) :=
  let expected :=
    match expected with
    | Some l => if truthy l then l else DEFAULT_EXPECTED
    | None => DEFAULT_EXPECTED
    end in
  resp <~ session_request {| method := method_; url := url_;
                             headers := headers_; data := data_ |};;
  let status_ := status resp in
  let resp_headers_ := resp_hdrs resp in
  r <~ lift (read_payload resp);;
  if existsb (Z.eqb status_) expected then ret (r, status_)
  else raise (ApiError (exception_for status_) r resp_headers_).

(** [acquire_token(app_id, app_secret, tenant_id)] *)
Definition acquire_token (app_id app_secret tenant_id : string) : M (payload * Z) :=
  let req_body :=
    Form [("grant_type", "client_credentials");
          ("scope", "https://graph.microsoft.com/.default");
          ("client_id", app_id);
          ("client_secret", app_secret)] in
  let url_ :=
    "https://login.microsoftonline.com/" +:+ tenant_id +:+ "/oauth2/v2.0/token" in
  _request "POST" url_ None (Some req_body) None.

(** [res[key]] for what [_request] returned. *)
Definition getitem (res : payload) (key : string) : result json :=
  match res with
  | PJson (JObj members) =>
      match List.find (fun kv => String.eqb (fst kv) key) members with
      | Some kv => Ok (snd kv)
      | None => Raise (KeyError key)
      end
  | PJson JNull => Raise (TypeError "'NoneType' object is not subscriptable")
  | PJson (JBool _) => Raise (TypeError "'bool' object is not subscriptable")
  | PJson (JNum _) => Raise (TypeError "'int' object is not subscriptable")
  | PJson (JStr _) => Raise (TypeError "string indices must be integers")
  | PJson (JArr _) => Raise (TypeError "list indices must be integers or slices, not str")
  | PBytes _ => Raise (TypeError "byte indices must be integers or slices, not str")
  end.

(** [res.get(key)]: only a dict has [get]; a missing key gives [None]. *)
Definition get (res : payload) (key : string) : result json :=
  match res with
  | PJson (JObj members) =>
      match List.find (fun kv => String.eqb (fst kv) key) members with
      | Some kv => Ok (snd kv)
      | None => Ok JNull
      end
  | _ => Raise (AttributeError "object has no attribute 'get'")
  end.

(** The elements [for x in v] visits: those of a list, the keys of a
    dict, the characters of a string. *)
Definition iter (v : json) : result (list json) :=
  match v with
  | JArr items => Ok items
  | JObj members => Ok (map (fun kv => JStr (fst kv)) members)
  | JStr s => Ok (map (fun c => JStr (String c "")) (list_ascii_of_string s))
  | JNull => Raise (TypeError "'NoneType' object is not iterable")
  | JBool _ => Raise (TypeError "'bool' object is not iterable")
  | JNum _ => Raise (TypeError "'int' object is not iterable")
  end.

Definition set_token (tok : json) : M unit :=
  c <~ get_self;;
  put_self {| _token := tok; _managed := _managed c;
              _token_refresh_interval_sec := _token_refresh_interval_sec c;
              _scheduler := _scheduler c;
              _enable_logging := _enable_logging c |}.

(** [_refresh_token(app_id, app_secret, tenant_id)] *)
Definition _refresh_token (app_id app_secret tenant_id : string) : M unit :=
  p <~ acquire_token app_id app_secret tenant_id;;
  let content := fst p in
  tok <~ lift (getitem content "access_token");;
  set_token tok;;;
  _log INFO "token has been refreshed" None.

(** [self._scheduler.add_job(self._refresh_token, 'interval', args=...,
    seconds=...)] and [self._scheduler.start()] *)
Definition add_job (args : string * string * string) (secs : Z) : M unit :=
  c <~ get_self;;
  put_self {| _token := _token c; _managed := _managed c;
              _token_refresh_interval_sec := _token_refresh_interval_sec c;
              _scheduler :=
                {| jobs := jobs (_scheduler c) ++ [{| job_args := args; seconds := secs |}];
                   running := running (_scheduler c) |};
              _enable_logging := _enable_logging c |}.

Definition start : M unit :=
  c <~ get_self;;
  put_self {| _token := _token c; _managed := _managed c;
              _token_refresh_interval_sec := _token_refresh_interval_sec c;
              _scheduler := {| jobs := jobs (_scheduler c); running := true |};
              _enable_logging := _enable_logging c |}.

Definition set_managed (b : bool) : M unit :=
  c <~ get_self;;
  put_self {| _token := _token c; _managed := b;
              _token_refresh_interval_sec := _token_refresh_interval_sec c;
              _scheduler := _scheduler c;
              _enable_logging := _enable_logging c |}.

(** [manage_token(app_id, app_secret, tenant_id)] *)
Definition manage_token (app_id app_secret tenant_id : string) : M unit :=
  c <~ get_self;;
  if _managed c then raise (GraphClientException "Token is already managed")
  else
    try_except
      (_refresh_token app_id app_secret tenant_id;;;
       c <~ get_self;;
       add_job (app_id, app_secret, tenant_id) (_token_refresh_interval_sec c);;;
       start;;;
       set_managed true)
      (fun e =>
         _log ERROR "exception while trying to set manage token: " (Some e);;;
         raise (GraphClientExceptionFrom e)).

(** *** Endpoints *)

(** [list_users_bulk], with its decorator. *)
Definition list_users_bulk `{Constants} : kwargs -> M (payload * Z) :=
  authorized (fun kw =>
    url_ <~ lift (_build_url V1_EP [(USERS, None)] (odata_query kw));;
    _request "GET" url_ (_req_headers kw) None (expected_statuses kw)).

(** The URL the session makes of [next_url]: only a string is one. *)
Definition url_of (next_url : json) : result string :=
  match next_url with
  | JStr s => Ok s
  | _ => Raise (TypeError "Constructor parameter should be str")
  end.

(** [list_more_users(next_url)], with its decorator. *)
Definition list_more_users (next_url : json) : kwargs -> M (payload * Z) :=
  authorized (fun kw =>
    url_ <~ lift (url_of next_url);;
    _request "GET" url_ (_req_headers kw) None (expected_statuses kw)).

(** [list_user_mails_bulk(user_id)], with its decorator. *)
Definition list_user_mails_bulk `{Constants} (user_id : string)
  : kwargs -> M (payload * Z) :=
  authorized (fun kw =>
    url_ <~ lift (_build_url V1_EP [(USERS, Some user_id); (MAILS, None)]
                             (odata_query kw));;
    _request "GET" url_ (_req_headers kw) None (expected_statuses kw)).

(** [list_more_user_mails(next_url)], with its decorator. *)
Definition list_more_user_mails (next_url : json) : kwargs -> M (payload * Z) :=
  authorized (fun kw =>
    url_ <~ lift (url_of next_url);;
    _request "GET" url_ (_req_headers kw) None (expected_statuses kw)).

(** *** The paginated sequences

    [list_all_users] and [list_all_user_mails] are asynchronous generators
    with one body, up to the two methods they call.  A generator object is
    its point of suspension: not started, inside one of the [for] loops
    with the items still to yield and the current [next_url], or
    finished. *)
Inductive generator :=
| Created (kw : kwargs)
| Suspended (items : list json) (next_url : json) (kw : kwargs)
| Closed.

(** What one step of the body does: it has awaited a page, it yields an
    item, or it returns. *)
Inductive event :=
| Fetched
| Yielded (item : json)
| Stopped.

(** [next_url = res.get(NEXT_KEY)], then the items of [res["value"]]. *)
Definition open_page `{Constants} (res : payload) (kw : kwargs) : M (event * generator) :=
  next_url <~ lift (get res NEXT_KEY);;
  v <~ lift (getitem res "value");;
  items <~ lift (iter v);;
  ret (Fetched, Suspended items next_url kw).

(** The body between two suspensions.  [first] and [more] are the calls
    for the first page and for a page from its URL. *)
Definition body_step `{Constants}
           (first : kwargs -> M (payload * Z))
           (more : json -> kwargs -> M (payload * Z))
           (g : generator) : M (event * generator) :=
  match g with
  | Created kw =>
      p <~ first kw;;
      open_page (fst p) kw
  | Suspended (item :: rest) next_url kw =>
      ret (Yielded item, Suspended rest next_url kw)
  | Suspended [] next_url kw =>
      if truthy next_url then
        p <~ more next_url kw;;
        open_page (fst p) kw
      else ret (Stopped, Closed)
  | Closed => ret (Stopped, Closed)
  end.

(** One step of a generator object; an exception in the body finishes
    the generator. *)
Definition step `{Constants} first more (g : generator) (s : state)
  : result event * generator * state :=
  match body_step first more g s with
  | (Ok (ev, g'), s') => (Ok ev, g', s')
  | (Raise e, s') => (Raise e, Closed, s')
  | (NotModelled, s') => (NotModelled, Closed, s')
  end.


Definition list_all_users_step `{Constants}
  : generator -> state -> result event * generator * state :=
  step list_users_bulk list_more_users.

(** [list_all_user_mails(user_id)], with its decorator. *)
Definition list_all_user_mails (user_id : string) : kwargs -> M generator :=
  authorized (fun kw => ret (Created kw)).

Definition list_all_user_mails_step `{Constants} (user_id : string)
  : generator -> state -> result event * generator * state :=
  step (list_user_mails_bulk user_id) list_more_user_mails.

(** [async for item in gen], consumed to the end: the events of the
    run, in order, and how it ended. *)
Inductive ending :=
| Exhausted
| Failed (e : exn)
| Unknown
| OutOfFuel.

Fixpoint async_for (fuel : nat)
         (stp : generator -> state -> result event * generator * state)
         (g : generator) (s : state) : list event * ending * state :=
  match fuel with
  | O => ([], OutOfFuel, s)
  | S fuel' =>
      match stp g s with
      | (Ok Stopped, _, s') => ([], Exhausted, s')
      | (Ok ev, g', s') =>
          let '(evs, e, s'') := async_for fuel' stp g' s' in
          (ev :: evs, e, s'')
      | (Raise e, _, s') => ([], Failed e, s')
      | (NotModelled, _, s') => ([], Unknown, s')
      end
  end.


(** *** Further endpoints *)

(** The constant [SUBSCRIPTIONS] of [common/constants.py], which is not
    among the sources either. *)
Class SubscriptionConstants := { SUBSCRIPTIONS : string }.

(** [get_user(user_id)], with its decorator. *)
Definition get_user `{Constants} (user_id : string) : kwargs -> M (payload * Z) :=
  authorized (fun kw =>
    url_ <~ lift (_build_url V1_EP [(USERS, Some user_id)] (odata_query kw));;
    _request "GET" url_ (_req_headers kw) None (expected_statuses kw)).

(** [delete_subscription(subscription_id)], with its decorator: the URL
    is built without the keyword arguments. *)
Definition delete_subscription `{Constants} `{SubscriptionConstants}
           (subscription_id : string) : kwargs -> M (payload * Z) :=
  authorized (fun kw =>
    url_ <~ lift (_build_url V1_EP [(SUBSCRIPTIONS, Some subscription_id)] None);;
    _request "DELETE" url_ (_req_headers kw) None (expected_statuses kw)).

End Client.

(** * Specification

    The definitions the statements below are written with: the texts and
    headers the spec describes, the pages of a collection, and the sample
    inputs of the examples. *)

Module ODataSpec.
Import OData.

(** A constraint whose attribute and value are strings and whose operator
    is a [LogicalOperator], which is what the data model asks for. *)
Definition typed (c : string * LogicalOperator * string) : Constrain :=
  let '(a, o, v) := c in
  Build_Constrain (PyStr a) (PyLogicalOperator o) (PyStr v).

(** The text of a constraint as the spec has it: the operator's template
    with attribute and value put in as they are. *)
Definition render (c : string * LogicalOperator * string) : string :=
  let '(a, o, v) := c in
  match o with
  | EQ => a +:+ " eq " +:+ v
  | NE => a +:+ " ne " +:+ v
  | LT => a +:+ " lt " +:+ v
  | GT => a +:+ " gt " +:+ v
  | LE => a +:+ " le " +:+ v
  | GE => a +:+ " ge " +:+ v
  | STARTS_WITH => "startsWith(" +:+ a +:+ ", " +:+ v +:+ ")"
  | ENDS_WITH => "endsWith(" +:+ a +:+ ", " +:+ v +:+ ")"
  end.

(** The connector between two constraints. *)
Definition separator (conn : LogicalConnector) : string :=
  match conn with
  | AND => " and "
  | OR => " or "
  end.

(** The text of a list of constraints joined by a connector. *)
Definition filter_text (conn : LogicalConnector)
           (cs : list (string * LogicalOperator * string)) : string :=
  Str.join (separator conn) (map render cs).

(** A boolean in lower case. *)
Definition truth_word (b : bool) : string := if b then "true" else "false".

(** A field that holds an empty value counts as holding none. *)
Definition populated {A} `{Truth A} (o : option A) : option A :=
  if truthy o then o else None.

(** The pair of one field, if the field holds a value. *)
Definition clause {A} (key : string) (show : A -> string) (o : option A) : list string :=
  match o with
  | Some a => [key +:+ "=" +:+ show a]
  | None => []
  end.

(** The pairs of five fields in the fixed order, joined, after the mark. *)
Definition fragment (count : option bool) (expand : option string)
           (filter : option string) (select : option (list string))
           (top : option Z) : string :=
  "?" +:+ Str.join "&"
    (clause "$count" truth_word count
     ++ clause "$expand" Str.lower expand
     ++ clause "$filter" (fun s => s) filter
     ++ clause "$select" (Str.join ",") select
     ++ clause "$top" Str.of_Z top).

(** What a filter field gives to the query string: nothing when no filter
    is set or when the filter holds no constraint; otherwise the text of
    its constraints, each with a string attribute, an operator and a string
    value, joined by its connector.  One constraint alone needs no
    connector. *)
Inductive filter_gives : option Filter -> option string -> Prop :=
| gives_unset : filter_gives None None
| gives_nothing (f : Filter) :
    _constrains f = None \/ _constrains f = Some [] ->
    filter_gives (Some f) None
| gives_text (f : Filter) (c : string * LogicalOperator * string)
             (cs : list (string * LogicalOperator * string))
             (conn : LogicalConnector) :
    _constrains f = Some (map typed (c :: cs)) ->
    (cs <> [] -> _logical_connector f = Some conn) ->
    filter_gives (Some f) (Some (filter_text conn (c :: cs))).

(** The texts Python is modelled on: an [expand] within ASCII and a [top]
    of at most 4300 digits. *)
Definition plain (q : ODataQuery) : Prop :=
  (forall e, _expand q = Some e -> Str.is_ascii e = true)
  /\ (forall n, _top q = Some n -> (Str.digits n <= 4300)%nat).

(** Whether the filter of [q] holds a constraint. *)
Definition has_constraints (q : ODataQuery) : Prop :=
  exists f c cs, _filter q = Some f /\ _constrains f = Some (c :: cs).

(** The texts [__str__] asks of Python for [expand] and for [top]. *)
Definition lowered (expand : option string) : result (option string) :=
  match expand with
  | Some e => e' <- Str.lower_text e;; Ok (Some e')
  | None => Ok None
  end.

Definition printed (top : option Z) : result (option string) :=
  match top with
  | Some n => t <- Str.str_int n;; Ok (Some t)
  | None => Ok None
  end.

(** The query string as the spec words it: every field that was set gives a
    pair, and the sentinel stands for a query with no field set. *)
Definition as_stated (ftext : string) (q : ODataQuery) : string :=
  match _count q, _expand q, _filter q, _select q, _top q with
  | None, None, None, None, None => EMPTY_QUERY
  | count, expand, filter, select, top =>
      fragment count expand (fmap (fun _ => ftext) filter) select top
  end.

(** The query string with an empty text or list taken for an unset field:
    an empty [expand], an empty [select] and a filter that gives no text
    give no pair, and the sentinel stands for a query without a filter
    whose other fields are unset or empty.  [ftext] is what the filter
    gives. *)
Definition as_built (ftext : option string) (q : ODataQuery) : string :=
  match _count q, populated (_expand q), _filter q,
        populated (_select q), _top q with
  | None, None, None, None, None => EMPTY_QUERY
  | count, expand, _, select, top => fragment count expand ftext select top
  end.

(** The type a setter asks of its value. *)
Definition is_list_of (t : pytype) (v : pyval) : Prop :=
  exists l, v = PyList l /\ Forall (fun x => type x = t) l.

(** A query with only [top] set to 50. *)
Definition top_50 : ODataQuery :=
  {| _count := None; _expand := None; _filter := None;
     _select := None; _top := Some 50 |}.

(** A query with only [select] set, to the empty list. *)
Definition select_nothing : ODataQuery :=
  {| _count := None; _expand := None; _filter := None;
     _select := Some []; _top := None |}.

(** The filter of the spec's example: [name eq 'x'] or [age gt '10']. *)
Definition name_or_age : Filter :=
  Build_Filter (Some (map typed [("name", EQ, "'x'"); ("age", GT, "'10'")])) (Some OR).

(** The same constraints, both asked for. *)
Definition name_and_age : Filter :=
  Build_Filter (Some (map typed [("name", EQ, "'x'"); ("age", GT, "'10'")])) (Some AND).

Definition only_filter (f : Filter) : ODataQuery :=
  {| _count := None; _expand := None; _filter := Some f;
     _select := None; _top := None |}.

(** A query with every field set. *)
Definition all_fields : ODataQuery :=
  {| _count := Some true; _expand := Some "Manager"; _filter := Some name_or_age;
     _select := Some ["id"; "displayName"]; _top := Some 50 |}.


End ODataSpec.

Module ClientSpec.
Import OData Client.

(** The state a request leaves: the first pending response is taken and
    the request is added to those sent. *)
Definition after_request (req : request) (s : state) : state :=
  {| self := self s;
     env := {| pending := tail (pending (env s));
               sent := sent (env s) ++ [req];
               log := log (env s) |} |}.

(** The caller gave no expected statuses: the key is absent or empty. *)
Definition not_provided (expected : option (list Z)) : Prop :=
  expected = None \/ expected = Some [].

(** The header value for a token. *)
Definition bearer (t : string) : string :=
  if Str.startswith (Str.lower t) "bearer" then t else "bearer " +:+ t.

(** The caller's extra headers, none being the empty dict. *)
Definition extra_of (kw : kwargs) : gmap string string :=
  default ∅ (extra_headers kw).

(** A client fresh from its constructor, and the token endpoint's answer
    with the token [tok]. *)
Definition fresh : GraphClient := GraphClient___init__ false.

Definition token_response (tok : string) : response :=
  {| status := 200;
     resp_hdrs := [("Content-Type", "application/json; charset=utf-8")];
     json_body := Ok (JObj [("token_type", JStr "Bearer"); ("access_token", JStr tok)]);
     read_body := "" |}.

Definition world_with (resps : list response) : world :=
  {| pending := resps; sent := []; log := [] |}.

(** A managed client: [manage_token] has run on a fresh one. *)
Definition managed_state : state :=
  snd (manage_token "app" "secret" "tenant"
         {| self := fresh; env := world_with [token_response "T0"] |}).

(** A response of status 200 with a body but no [Content-Type] header, and
    a 404 response with a JSON body. *)
Definition untyped_response : response :=
  {| status := 200; resp_hdrs := [("Date", "Tue, 03 Nov 2026 10:00:00 GMT")];
     json_body := Ok (JObj []); read_body := "{}" |}.

(** A response of status 204, with no body and no [Content-Type] header. *)
Definition no_content_response : response :=
  {| status := 204; resp_hdrs := [("Date", "Tue, 03 Nov 2026 10:00:00 GMT")];
     json_body := Raise (ClientError "Expecting value: line 1 column 1 (char 0)");
     read_body := "" |}.

Definition not_found_body : json :=
  JObj [("error", JObj [("code", JStr "Request_ResourceNotFound")])].

Definition not_found_response : response :=
  {| status := 404; resp_hdrs := [("Content-Type", "application/json")];
     json_body := Ok not_found_body; read_body := "" |}.

(** The headers the spec asks for a call made with the token [t] and the
    caller's headers [extra], key by key: the caller's value where there is
    one, else the JSON content type and the bearer token. *)
Definition header_for (t : string) (extra : gmap string string) (k : string)
  : option string :=
  match extra !! k with
  | Some v => Some v
  | None =>
      if decide (k = "Content-type") then Some "application/json"
      else if decide (k = "authorization") then Some (bearer t)
      else None
  end.

(** The keyword arguments an operation under the decorator is to get:
    those of the caller, and the headers [h] under [_req_headers]. *)
Definition handed_on (kw : kwargs) (h : gmap string string) : kwargs :=
  {| token := token kw; extra_headers := extra_headers kw;
     expected_statuses := expected_statuses kw; odata_query := odata_query kw;
     _req_headers := Some h |}.

(** A function that sends a request whatever it is given. *)
Definition always_get (kw : kwargs) : M (payload * Z) :=
  _request "GET" "https://graph.microsoft.com/v1.0/users" (_req_headers kw) None None.

Definition no_kwargs : kwargs :=
  {| token := None; extra_headers := None; expected_statuses := None;
     odata_query := None; _req_headers := None |}.

Definition with_token (t : string) (extra : option (gmap string string)) : kwargs :=
  {| token := Some t; extra_headers := extra; expected_statuses := None;
     odata_query := None; _req_headers := None |}.

(** A page of a collection: its items and the URL of the next page, if
    there is one. *)
Record page := { items : list json; next : option string }.

(** The continuation field of a page, as the payload has it ([None] when it
    is absent or null). *)
Definition next_link (p : page) : json :=
  match next p with Some u => JStr u | None => JNull end.

(** The statuses a call expects. *)
Definition expected_or_default (expected : option (list Z)) : list Z :=
  match expected with
  | Some (st :: l) => st :: l
  | _ => DEFAULT_EXPECTED
  end.

(** The response [resp] carries the page [p]: its status is expected, its
    content type says JSON, and its body is an object with the items of [p]
    as an array under [value] and the continuation of [p] under
    [NEXT_KEY]. *)
Definition carries `{Constants} (expected : option (list Z))
           (resp : response) (p : page) : Prop :=
  In (status resp) (expected_or_default expected)
  /\ exists ct members,
      headers_getitem (resp_hdrs resp) "Content-Type" = Ok ct
      /\ Str.contains "application/json" ct = true
      /\ json_body resp = Ok (JObj members)
      /\ getitem (PJson (JObj members)) "value" = Ok (JArr (items p))
      /\ get (PJson (JObj members)) NEXT_KEY = Ok (next_link p).

(** Pages that make one collection: each page but the last has the URL of
    the next one, and the last has none. *)
Fixpoint chained (ps : list page) : Prop :=
  match ps with
  | [] => False
  | p :: ps' =>
      match ps' with
      | [] => next p = None
      | _ :: _ => (exists u, next p = Some u /\ u <> "") /\ chained ps'
      end
  end.

(** The events of a run over the pages: each page is awaited, then its
    items are yielded in order. *)
Definition trace (ps : list page) : list event :=
  concat (map (fun p => Fetched :: map Yielded (items p)) ps).

(** The request for a page. *)
Definition get_request (h : gmap string string) (u : string) : request :=
  {| method := "GET"; url := u; headers := Some h; data := None |}.

(** The state after the requests [reqs], each answered by the next pending
    response. *)
Definition after_requests (reqs : list request) (s : state) : state :=
  {| self := self s;
     env := {| pending := drop (length reqs) (pending (env s));
               sent := sent (env s) ++ reqs;
               log := log (env s) |} |}.

(** A token is at hand for the call. *)
Definition token_available (c : GraphClient) (kw : kwargs) : Prop :=
  truthy (_token c) = true \/ truthy (token kw) = true.

(** The step function of a paginated sequence whose first page is at the
    URL that [first] makes of the keyword arguments. *)
Definition pages_step `{Constants} (first : kwargs -> result string)
  : generator -> state -> result event * generator * state :=
  step (authorized (fun kw0 =>
          url_ <~ lift (first kw0);;
          _request "GET" url_ (_req_headers kw0) None (expected_statuses kw0)))
       list_more_users.

(** The generator [g] of the client [c], called with [kw] and running with
    the headers [h], is about to ask for the page at [u]: on a response
    that carries a page, its next step reads the page and sends one GET,
    to [u]. *)
Definition fetches `{Constants} (first : kwargs -> result string)
           (c : GraphClient) (kw : kwargs) (h : gmap string string)
           (g : generator) (u : string) : Prop :=
  forall s resp rest p,
    self s = c ->
    pending (env s) = resp :: rest ->
    carries (expected_statuses kw) resp p ->
    pages_step first g s
    = (Ok Fetched, Suspended (items p) (next_link p) (with_req_headers kw h),
       after_request (get_request h u) s).

(** Values for the constants, for the examples. *)
Definition graph_constants : Constants :=
  {| GRAPH_BASE_URL := "https://graph.microsoft.com/";
     V1_EP := "v1.0";
     USERS := "/users";
     MAILS := "/messages";
     NEXT_KEY := "@odata.nextLink" |}.


Definition user (n : Z) : json := JObj [("id", JNum n)].


Definition caller_kwargs : kwargs :=
  {| token := Some "abc"; extra_headers := None; expected_statuses := None;
     odata_query := None; _req_headers := None |}.


End ClientSpec.

(** ** Further definitions for the statements *)

Module ExtraSpec.
Import OData Client ODataSpec ClientSpec.

(** The operators whose template ends with the value. *)
Definition infix_operator (o : LogicalOperator) : bool :=
  match o with
  | STARTS_WITH | ENDS_WITH => false
  | _ => true
  end.

(** A query whose only field is a filter with the constraints [cs] and the
    connector [conn]. *)
Definition filter_query (cs : list Constrain) (conn : option LogicalConnector)
  : ODataQuery :=
  only_filter (Build_Filter (Some cs) conn).

(** The request a call of [_request] sends. *)
Definition request_of (method_ url_ : string) (headers_ : option (gmap string string))
           (data_ : option body) : request :=
  {| method := method_; url := url_; headers := headers_; data := data_ |}.

(** The request [acquire_token] sends. *)
Definition token_request (app_id app_secret tenant_id : string) : request :=
  request_of "POST"
    ("https://login.microsoftonline.com/" +:+ tenant_id +:+ "/oauth2/v2.0/token")
    None
    (Some (Form [("grant_type", "client_credentials");
                 ("scope", "https://graph.microsoft.com/.default");
                 ("client_id", app_id);
                 ("client_secret", app_secret)])).

(** A response of status 200, one of status 500 whose body says JSON and
    does not decode, and a state with one response pending. *)
Definition ok_response : response :=
  {| status := 200; resp_hdrs := [("content-type", "application/json")];
     json_body := Ok (JObj [("id", JNum 7)]); read_body := "" |}.

Definition broken_response : response :=
  {| status := 500; resp_hdrs := [("Content-Type", "application/json")];
     json_body := Raise (ValueError "Expecting value: line 1 column 1 (char 0)");
     read_body := "<html>" |}.

Definition state_with (resps : list response) : state :=
  {| self := fresh; env := world_with resps |}.

(** Keyword arguments with a token and a query. *)
Definition with_query (t : string) (q : ODataQuery) : kwargs :=
  {| token := Some t; extra_headers := None; expected_statuses := None;
     odata_query := Some q; _req_headers := None |}.

(** The keyword arguments with another query, or none. *)
Definition set_query (kw : kwargs) (q : option ODataQuery) : kwargs :=
  {| token := token kw; extra_headers := extra_headers kw;
     expected_statuses := expected_statuses kw; odata_query := q;
     _req_headers := _req_headers kw |}.

(** A filter of two constraints without a connector, which does not
    render. *)
Definition unconnected : ODataQuery :=
  filter_query [typed ("name", EQ, "'x'"); typed ("age", GT, "'10'")] None.

(** The client with another token. *)
Definition holding (c : GraphClient) (tok : json) : GraphClient :=
  {| _token := tok; _managed := _managed c;
     _token_refresh_interval_sec := _token_refresh_interval_sec c;
     _scheduler := _scheduler c; _enable_logging := _enable_logging c |}.

(** The client after [manage_token] went through with the token [tok]: it
    is managed, its scheduler runs, and one job more refreshes the token
    for [args] every so many seconds as the interval was at the call. *)
Definition managing (c : GraphClient) (tok : json) (args : string * string * string)
  : GraphClient :=
  {| _token := tok; _managed := true;
     _token_refresh_interval_sec := _token_refresh_interval_sec c;
     _scheduler :=
       {| jobs := jobs (_scheduler c)
                  ++ [{| job_args := args; seconds := _token_refresh_interval_sec c |}];
          running := true |};
     _enable_logging := _enable_logging c |}.

(** The world with one record more in the log, if the client logs. *)
Definition logged (c : GraphClient) (rec : log_record) (w : world) : world :=
  if _enable_logging c
  then {| pending := pending w; sent := sent w; log := log w ++ [rec] |}
  else w.

Definition refreshed_record : log_record :=
  {| level := INFO; msg := "token has been refreshed"; about := None |}.

Definition failure_record (e : exn) : log_record :=
  {| level := ERROR; msg := "exception while trying to set manage token: ";
     about := Some e |}.

(** The response carries the token [tok]: its status is one of the default
    ones and its payload is read as a dict with [tok] under
    [access_token]. *)
Definition grants (resp : response) (tok : json) : Prop :=
  In (status resp) DEFAULT_EXPECTED
  /\ exists r, read_payload resp = Ok r /\ getitem r "access_token" = Ok tok.

(** A token endpoint's refusal. *)
Definition refusal : response :=
  {| status := 401; resp_hdrs := [("Content-Type", "application/json")];
     json_body := Ok (JObj [("error", JStr "invalid_client")]); read_body := "" |}.

Definition logging_state (resps : list response) : state :=
  {| self := GraphClient___init__ true; env := world_with resps |}.

(** The response [resp] serves the items [its] with [n] in its
    continuation field: its status is expected and its payload is read as a
    dict with the array [its] under [value] and [n] under [NEXT_KEY]
    ([None] when the field is absent). *)
Definition serves `{Constants} (expected : option (list Z))
           (resp : response) (its : list json) (n : json) : Prop :=
  In (status resp) (expected_or_default expected)
  /\ exists r, read_payload resp = Ok r
               /\ get r NEXT_KEY = Ok n
               /\ getitem r "value" = Ok (JArr its).

(** A page whose continuation field holds the empty string, and a
    response of status 500. *)
Definition last_page_response : response :=
  {| status := 200; resp_hdrs := [("Content-Type", "application/json")];
     json_body := Ok (JObj [("@odata.nextLink", JStr ""); ("value", JArr [user 1; user 2])]);
     read_body := "" |}.

Definition server_error_response : response :=
  {| status := 500; resp_hdrs := [("Content-Type", "text/html")];
     json_body := Raise (ValueError "Expecting value: line 1 column 1 (char 0)");
     read_body := "<html>Internal Server Error</html>" |}.

(** A client whose interval was set to 600 before [manage_token] ran. *)
Definition tuned_state : state :=
  snd (set_token_refresh_interval_sec 600 (state_with [token_response "T0"])).

Definition tuned_managed_state : state :=
  snd (manage_token "app" "secret" "tenant" tuned_state).

(** Values for the constant of the subscriptions, for the examples. *)
Definition subscription_constants : SubscriptionConstants :=
  {| SUBSCRIPTIONS := "/subscriptions" |}.

End ExtraSpec.

(** * Proofs *)

(** ** Facts about strings *)

Lemma append_cons (c : ascii) (s t : string) : String c s +:+ t = String c (s +:+ t).
Proof. reflexivity. Qed.

Lemma append_nil_l (s : string) : "" +:+ s = s.
Proof. reflexivity. Qed.

Lemma append_nil_r (s : string) : s +:+ "" = s.
Proof. induction s as [|c s IH]; [reflexivity|]. now rewrite append_cons, IH. Qed.

Lemma append_assoc (s t u : string) : (s +:+ t) +:+ u = s +:+ t +:+ u.
Proof. induction s as [|c s IH]; [reflexivity|]. now rewrite !append_cons, IH. Qed.

Lemma truthy_append (s t : string) : truthy (s +:+ t) = truthy s || truthy t.
Proof. destruct s; reflexivity. Qed.

Lemma join_cons2 (sep x y : string) (l : list string) :
  Str.join sep (x :: y :: l) = x +:+ sep +:+ Str.join sep (y :: l).
Proof. reflexivity. Qed.

(** ** The query builder *)

Module ODataProofs.
Import OData ODataSpec.

Lemma Constrain_str_typed (c : string * LogicalOperator * string) :
  Constrain___str__ (typed c) = Ok (render c).
Proof.
  destruct c as [[a o] v].
  destruct o; cbn [render];
    first
      [ reflexivity
      | lazymatch goal with
        | |- _ = Ok (?x +:+ ?mid +:+ ?y) =>
            transitivity (Ok (x +:+ mid +:+ y +:+ ""));
            [reflexivity | now rewrite append_nil_r]
        end ].
Qed.

Lemma render_truthy (c : string * LogicalOperator * string) : truthy (render c) = true.
Proof.
  destruct c as [[a o] v].
  destruct o; cbn [render]; rewrite ?truthy_append; try reflexivity;
    destruct (truthy a); reflexivity.
Qed.

(** The connector as the loop writes it. *)
Lemma separator_name (conn : LogicalConnector) :
  " " +:+ Str.lower (name conn) +:+ " " = separator conn.
Proof. destruct conn; reflexivity. Qed.

(** From a text that is not empty, the loop adds the connector and the
    constraint for each constraint left. *)
Lemma build_filter_loop_from (conn : LogicalConnector)
      (cs : list (string * LogicalOperator * string)) (res : string) :
  truthy res = true ->
  _build_filter_loop (Some conn) (map typed cs) res =
  Ok (res +:+ String.concat "" (map (fun c => separator conn +:+ render c) cs)).
Proof.
  revert res. induction cs as [|c cs IH]; intros res Hres.
  - cbn. now rewrite append_nil_r.
  - cbn [map _build_filter_loop]. rewrite Hres. cbn [bind].
    rewrite Constrain_str_typed. cbn [bind]. rewrite separator_name.
    rewrite IH.
    + f_equal. destruct cs as [|c' cs].
      * cbn [map String.concat]. now rewrite append_nil_r, !append_assoc.
      * cbn [map String.concat]. now rewrite !append_assoc.
    + rewrite !truthy_append. rewrite Hres. reflexivity.
Qed.

Lemma concat_separated (sep : string) (x : string) (l : list string) :
  x +:+ String.concat "" (map (fun y => sep +:+ y) l) = Str.join sep (x :: l).
Proof.
  revert x. induction l as [|y l IH]; intros x.
  - cbn. now rewrite append_nil_r.
  - rewrite join_cons2, <- IH. cbn [map]. destruct l as [|z l].
    + cbn. now rewrite !append_nil_r.
    + cbn [map String.concat]. cbn [append]. now rewrite !append_assoc.
Qed.

Lemma build_filter_loop_join (conn : LogicalConnector)
      (c : string * LogicalOperator * string)
      (cs : list (string * LogicalOperator * string)) :
  _build_filter_loop (Some conn) (map typed (c :: cs)) "" =
  Ok (Str.join (separator conn) (map render (c :: cs))).
Proof.
  cbn [map _build_filter_loop]. cbn [truthy string_truth bind].
  rewrite Constrain_str_typed. cbn [bind]. rewrite append_nil_l.
  rewrite build_filter_loop_from by apply render_truthy.
  f_equal. rewrite <- (map_map render (fun y => separator conn +:+ y)).
  apply concat_separated.
Qed.

(** One constraint is written without a look at the connector. *)
Lemma build_filter_loop_single (conn : option LogicalConnector)
      (c : string * LogicalOperator * string) :
  _build_filter_loop conn [typed c] "" = Ok (render c).
Proof.
  cbn [_build_filter_loop]. cbn [truthy string_truth bind].
  rewrite Constrain_str_typed. reflexivity.
Qed.

(** What [ODataQuery.__str__] computes, with the three texts that may fail
    set apart: the sentinel, or the pairs of the fields that hold a true
    value. *)
Lemma str_clauses (q : ODataQuery) :
  ODataQuery___str__ q =
  if negb (truthy (_count q)) && negb (truthy (_expand q))
     && negb (truthy (_filter q)) && negb (truthy (_select q))
     && negb (truthy (_top q))
  then Ok EMPTY_QUERY
  else
    e <- lowered (populated (_expand q));;
    ftext <- (if filter_and_constrains q
              then f <- _build_filter q;; Ok (Some f) else Ok None);;
    t <- printed (populated (_top q));;
    Ok ("?" +:+ Str.join "&"
          (clause "$count" truth_word (populated (_count q))
           ++ clause "$expand" (fun s => s) e
           ++ clause "$filter" (fun s => s) ftext
           ++ clause "$select" (Str.join ",") (populated (_select q))
           ++ clause "$top" (fun s => s) t)).
Proof.
  unfold ODataQuery___str__, lowered, printed, populated.
  destruct (negb (truthy (_count q)) && negb (truthy (_expand q))
            && negb (truthy (_filter q)) && negb (truthy (_select q))
            && negb (truthy (_top q))); [reflexivity|].
  destruct (_count q) as [[|]|], (_expand q) as [[|ch ex]|];
    cbn [truthy option_truth bool_truth string_truth];
    try destruct (Str.lower_text (String ch ex));
    cbn [bind]; try reflexivity;
    (destruct (filter_and_constrains q); [destruct (_build_filter q)|]);
    cbn [bind]; try reflexivity;
    destruct (_select q) as [[|x l]|], (_top q) as [n|];
    cbn [truthy option_truth list_truth];
    try (destruct (truthy n); [destruct (Str.str_int n)|]);
    reflexivity.
Qed.

(** The three texts of a query within the modelled range. *)
Lemma lowered_ascii (expand : option string) :
  (forall e, expand = Some e -> Str.is_ascii e = true) ->
  lowered (populated expand) = Ok (fmap Str.lower (populated expand)).
Proof.
  intros He. unfold populated.
  destruct expand as [[|ch ex]|]; try reflexivity.
  cbn [truthy option_truth string_truth lowered]. unfold Str.lower_text.
  now rewrite (He _ eq_refl).
Qed.

Lemma lowered_plain (q : ODataQuery) :
  plain q ->
  lowered (populated (_expand q)) = Ok (fmap Str.lower (populated (_expand q))).
Proof. intros [He _]. now apply lowered_ascii. Qed.

Lemma str_int_digits (n : Z) :
  (Str.digits n <= 4300)%nat -> Str.str_int n = Ok (Str.of_Z n).
Proof.
  intros Hn. unfold Str.str_int.
  now rewrite (proj2 (Nat.leb_le (Str.digits n) 4300) Hn).
Qed.

Lemma printed_plain (q : ODataQuery) :
  plain q ->
  printed (populated (_top q)) = Ok (fmap Str.of_Z (populated (_top q))).
Proof.
  intros [_ Hn]. unfold populated.
  destruct (_top q) as [n|]; [|reflexivity].
  destruct (truthy (Some n)); [|reflexivity].
  cbn [printed]. now rewrite (str_int_digits n (Hn n eq_refl)).
Qed.

Lemma filter_gives_built (q : ODataQuery) (ftext : option string) :
  filter_gives (_filter q) ftext ->
  (if filter_and_constrains q
   then f <- _build_filter q;; Ok (Some f) else Ok None) = Ok ftext.
Proof.
  unfold filter_and_constrains, _build_filter.
  inversion 1 as [Hf | f [Hcs | Hcs] Hf | f c cs conn Hcs Hconn Hf].
  - reflexivity.
  - now rewrite Hcs.
  - now rewrite Hcs.
  - rewrite Hcs. cbn [map truthy option_truth list_truth Filter_truth andb].
    destruct cs as [|c' cs].
    + cbn [map]. now rewrite build_filter_loop_single.
    + rewrite Hconn by discriminate.
      change (typed c :: map typed (c' :: cs)) with (map typed (c :: c' :: cs)).
      now rewrite (build_filter_loop_join conn c (c' :: cs)).
Qed.

(** The setters build the examples. *)
Example top_50_by_setter : set_top ODataQuery___init__ (PyInt 50) = Ok top_50.
Proof. reflexivity. Qed.

Example select_nothing_by_setter :
  set_select ODataQuery___init__ (PyList []) = Ok select_nothing.
Proof. reflexivity. Qed.

Example all_fields_by_setters :
  (f <- Filter_set_constrains Filter___init__
          (PyList [PyConstrain (typed ("name", EQ, "'x'"));
                   PyConstrain (typed ("age", GT, "'10'"))]);;
   f <- Filter_set_logical_connector f (PyLogicalConnector OR);;
   q <- set_count ODataQuery___init__ (PyBool true);;
   q <- set_expand q (PyStr "Manager");;
   q <- set_filter q (PyFilter f);;
   q <- set_select q (PyList [PyStr "id"; PyStr "displayName"]);;
   set_top q (PyInt 50)) = Ok all_fields.
Proof. reflexivity. Qed.

(** C1, as stated, fails: [select] set to the empty list is a field that
    was set, so the stated query string is [?$select=], but [__str__]
    returns the sentinel, which does not begin with the question mark. *)
Lemma query_string_as_stated_fails :
  as_stated "" select_nothing = "?$select="
  /\ ODataQuery___str__ select_nothing = Ok EMPTY_QUERY
  /\ Str.startswith EMPTY_QUERY "?" = false
  /\ ODataQuery___str__ select_nothing <> Ok (as_stated "" select_nothing).
Proof. repeat split; try reflexivity. discriminate. Qed.

(** C1 (amended): take a query whose [count] is not [False], whose [top]
    is not zero and has at most 4300 digits, whose [expand] is ASCII text,
    and whose filter, if it holds constraints, holds constraints with a
    string attribute, an operator and a string value and, if it holds more
    than one, a connector.  [__str__] returns the sentinel when no filter
    is set and every other field is unset or, for [expand] and [select],
    empty.  Otherwise it returns the question mark followed by the pairs,
    joined by [&], in the order count, expand, filter, select, top: [$count=true],
    [$expand=] with the text in lower case when it is not empty, [$filter=]
    with the constraints rendered and joined by [ and ] or [ or ] when there
    is one at least, [$select=] with the names joined by commas when there
    is one at least, [$top=] with the number.  Only [top=50] set gives
    [?$top=50]; nothing set gives the sentinel. *)
Theorem query_string_fragment :
  (forall (q : ODataQuery) (ftext : option string),
      _count q <> Some false ->
      _top q <> Some 0 ->
      plain q ->
      filter_gives (_filter q) ftext ->
      ODataQuery___str__ q = Ok (as_built ftext q))
  /\ ODataQuery___str__ top_50 = Ok "?$top=50"
  /\ ODataQuery___str__ ODataQuery___init__ = Ok EMPTY_QUERY.
Proof.
  split; [|split; reflexivity].
  intros q ftext Hcount Htop Hplain Hfilter. rewrite str_clauses.
  rewrite (lowered_plain q Hplain), (printed_plain q Hplain),
    (filter_gives_built q ftext Hfilter).
  assert (Hn : forall n : Z, _top q = Some n -> truthy n = true).
  { intros n Hn. unfold truthy, Z_truth. apply negb_true_iff, Z.eqb_neq.
    intros ->. now apply Htop. }
  assert (Hnone : _filter q = None -> ftext = None).
  { intros Hf. rewrite Hf in Hfilter. now inversion Hfilter. }
  clear Hfilter Hplain. unfold as_built, fragment, populated in *.
  destruct (_filter q) as [f|]; [|rewrite (Hnone eq_refl)];
    (destruct (_count q) as [[|]|]; [|congruence|]);
    destruct (_expand q) as [[|ch ex]|], (_select q) as [[|x l]|], (_top q) as [n|];
    cbn [truthy option_truth bool_truth string_truth list_truth Filter_truth
         negb andb];
    try (fold (truthy n); rewrite (Hn n eq_refl)); reflexivity.
Qed.

Lemma query_string_fragment_witness :
  ODataQuery___str__ all_fields
  = Ok "?$count=true&$expand=manager&$filter=name eq 'x' or age gt '10'&$select=id,displayName&$top=50".
Proof.
  refine (proj1 query_string_fragment all_fields
            (Some (filter_text OR [("name", EQ, "'x'"); ("age", GT, "'10'")]))
            _ _ _ _).
  - discriminate.
  - discriminate.
  - split.
    + intros e He. injection He as <-. reflexivity.
    + intros n Hn. injection Hn as <-. vm_compute. lia.
  - apply (gives_text name_or_age ("name", EQ, "'x'") [("age", GT, "'10'")] OR).
    + reflexivity.
    + reflexivity.
Defined.

(** C7, on the code: a query whose [count] was set to [False] serializes
    to the sentinel, like the query with nothing set, and with [top] set as
    well it serializes without a [$count] pair; [count] set to [True] gives
    [$count=true]. *)
Theorem count_false_is_not_serialized :
  (q <- set_count ODataQuery___init__ (PyBool false);; ODataQuery___str__ q)
  = Ok EMPTY_QUERY
  /\ (q <- set_count ODataQuery___init__ (PyBool false);;
      q <- set_top q (PyInt 5);; ODataQuery___str__ q) = Ok "?$top=5"
  /\ (q <- set_count ODataQuery___init__ (PyBool true);; ODataQuery___str__ q)
     = Ok "?$count=true".
Proof. repeat split. Qed.

(** C10: a query whose only populated field is a filter with no list of
    constraints, or with an empty one, serializes to the question mark
    alone, which is not the sentinel. *)
Theorem empty_filter_gives_question_mark (q : ODataQuery) (f : Filter) :
  _count q = None -> _expand q = None -> _select q = None -> _top q = None ->
  _filter q = Some f ->
  _constrains f = None \/ _constrains f = Some [] ->
  ODataQuery___str__ q = Ok "?" /\ "?" <> EMPTY_QUERY.
Proof.
  intros Hc He Hs Ht Hf Hcs. split; [|discriminate].
  unfold ODataQuery___str__, filter_and_constrains.
  rewrite Hc, He, Hs, Ht, Hf. destruct Hcs as [-> | ->]; reflexivity.
Qed.

Lemma empty_filter_gives_question_mark_witness :
  (q <- set_filter ODataQuery___init__ (PyFilter Filter___init__);;
   ODataQuery___str__ q) = Ok "?".
Proof.
  cbn [set_filter bind].
  refine (proj1 (empty_filter_gives_question_mark _ Filter___init__ _ _ _ _ _ _));
    try reflexivity.
  left; reflexivity.
Defined.

(** C9: for a filter with a connector and with constraints that are not
    none, each with a string attribute, an operator and a string value,
    [_build_filter] returns the constraints, each as its operator's
    template with attribute and value put in as they are, joined by
    [ and ] for the connector [AND] and by [ or ] for [OR]; and the query
    string, when [expand] and [top] are within the texts modelled, holds
    [$filter=] followed by that text as one of its pairs, after the pairs of
    count and expand and before those of select and top. *)
Theorem filter_fragment (q : ODataQuery) (f : Filter)
        (c : string * LogicalOperator * string)
        (cs : list (string * LogicalOperator * string)) (conn : LogicalConnector) :
  _filter q = Some f ->
  _constrains f = Some (map typed (c :: cs)) ->
  _logical_connector f = Some conn ->
  let text := Str.join (separator conn) (map render (c :: cs)) in
  _build_filter q = Ok text
  /\ (plain q ->
      exists before after,
        ODataQuery___str__ q =
        Ok ("?" +:+ Str.join "&" (before ++ ["$filter=" +:+ text] ++ after))
        /\ (_count q = None -> _expand q = None -> before = [])
        /\ (_select q = None -> _top q = None -> after = [])).
Proof.
  intros Hf Hcs Hconn text.
  assert (Hb : _build_filter q = Ok text).
  { unfold _build_filter. rewrite Hf, Hcs, Hconn. apply build_filter_loop_join. }
  split; [exact Hb|]. intros Hplain.
  rewrite str_clauses, (lowered_plain q Hplain), (printed_plain q Hplain).
  unfold filter_and_constrains. rewrite Hf, Hcs, Hb.
  replace (negb (truthy (_count q)) && negb (truthy (_expand q))
           && negb (truthy (Some f)) && negb (truthy (_select q))
           && negb (truthy (_top q))) with false
    by (destruct (truthy (_count q)), (truthy (_expand q)); reflexivity).
  cbn [map truthy option_truth list_truth Filter_truth andb bind clause].
  exists (clause "$count" truth_word (populated (_count q))
          ++ clause "$expand" (fun s => s) (Str.lower <$> populated (_expand q))).
  exists (clause "$select" (Str.join ",") (populated (_select q))
          ++ clause "$top" (fun s => s) (Str.of_Z <$> populated (_top q))).
  split; [now rewrite <- app_assoc|]. split.
  - intros -> ->. reflexivity.
  - intros -> ->. reflexivity.
Qed.

Lemma filter_fragment_witness :
  _build_filter (only_filter name_or_age) = Ok "name eq 'x' or age gt '10'"
  /\ ODataQuery___str__ (only_filter name_or_age)
     = Ok "?$filter=name eq 'x' or age gt '10'"
  /\ _build_filter (only_filter name_and_age) = Ok "name eq 'x' and age gt '10'"
  /\ ODataQuery___str__ (only_filter name_and_age)
     = Ok "?$filter=name eq 'x' and age gt '10'".
Proof.
  assert (Hplain : forall f, plain (only_filter f)).
  { intros f. split; intros x Hx; discriminate Hx. }
  destruct (filter_fragment (only_filter name_or_age) name_or_age
              ("name", EQ, "'x'") [("age", GT, "'10'")] OR
              eq_refl eq_refl eq_refl) as (Htext & Hq).
  destruct (Hq (Hplain _)) as (before & after & Hstr & Hb & Ha).
  destruct (filter_fragment (only_filter name_and_age) name_and_age
              ("name", EQ, "'x'") [("age", GT, "'10'")] AND
              eq_refl eq_refl eq_refl) as (Htext' & Hq').
  destruct (Hq' (Hplain _)) as (before' & after' & Hstr' & Hb' & Ha').
  refine (conj Htext (conj _ (conj Htext' _))).
  - rewrite (Hb eq_refl eq_refl), (Ha eq_refl eq_refl) in Hstr. exact Hstr.
  - rewrite (Hb' eq_refl eq_refl), (Ha' eq_refl eq_refl) in Hstr'. exact Hstr'.
Defined.

Lemma all_strings_rejects (l : list pyval) :
  Exists (fun x => type x <> TStr) l ->
  all_strings l = Raise (ValueError "all values should be strings").
Proof.
  induction l as [|x l IH]; intros H.
  - inversion H.
  - destruct x; try reflexivity.
    cbn [all_strings]. rewrite IH; [reflexivity|].
    inversion H as [? ? Hx | ? ? Hl]; subst; [|exact Hl].
    now contradiction Hx.
Qed.

Lemma all_constrains_rejects (l : list pyval) :
  Exists (fun x => type x <> TConstrain) l ->
  all_constrains l = Raise (ValueError "all values must be constrains").
Proof.
  induction l as [|x l IH]; intros H.
  - inversion H.
  - destruct x; try reflexivity.
    cbn [all_constrains]. rewrite IH; [reflexivity|].
    inversion H as [? ? Hx | ? ? Hl]; subst; [|exact Hl].
    now contradiction Hx.
Qed.

Lemma all_strings_accepts (l : list pyval) :
  Forall (fun x => type x = TStr) l ->
  exists ss, all_strings l = Ok ss /\ l = map PyStr ss.
Proof.
  induction 1 as [|x l Hx _ [ss [IH ->]]].
  - now exists [].
  - destruct x; try discriminate Hx.
    exists (s :: ss). cbn [all_strings]. now rewrite IH.
Qed.

Lemma all_constrains_accepts (l : list pyval) :
  Forall (fun x => type x = TConstrain) l ->
  exists cs, all_constrains l = Ok cs /\ l = map PyConstrain cs.
Proof.
  induction 1 as [|x l Hx _ [cs [IH ->]]].
  - now exists [].
  - destruct x; try discriminate Hx.
    exists (c :: cs). cbn [all_constrains]. now rewrite IH.
Qed.

(** Values of the asked type are stored. *)
Lemma setters_accept (q : ODataQuery) (f : Filter) :
  (forall b, exists q', set_count q (PyBool b) = Ok q' /\ _count q' = Some b)
  /\ (forall v, is_list_of TStr v ->
                exists q' ss, set_select q v = Ok q' /\ _select q' = Some ss
                              /\ v = PyList (map PyStr ss))
  /\ (forall v, is_list_of TConstrain v ->
                exists f' cs, Filter_set_constrains f v = Ok f'
                              /\ _constrains f' = Some cs
                              /\ v = PyList (map PyConstrain cs)).
Proof.
  repeat split.
  - intros b. eexists. split; reflexivity.
  - intros v (l & -> & Hl). destruct (all_strings_accepts l Hl) as (ss & Hss & ->).
    eexists _, ss. cbn [set_select]. rewrite Hss. repeat split.
  - intros v (l & -> & Hl). destruct (all_constrains_accepts l Hl) as (cs & Hcs & ->).
    eexists _, cs. cbn [Filter_set_constrains]. rewrite Hcs. repeat split.
Qed.

(** C8, as stated, fails for [Constrain]: the constructor takes an integer
    for the attribute, a string for the operator and [None] for the value
    without a complaint, and the constraint fails when it is serialized. *)
Lemma Constrain_accepts_ill_typed :
  type (PyInt 5) <> TStr
  /\ type (PyStr "eq") <> TLogicalOperator
  /\ type PyNone <> TStr
  /\ Constrain___init__ (PyInt 5) (PyStr "eq") PyNone
     = Ok (Build_Constrain (PyInt 5) (PyStr "eq") PyNone)
  /\ Constrain___str__ (Build_Constrain (PyInt 5) (PyStr "eq") PyNone)
     = Raise (AttributeError "'str' object has no attribute 'template'").
Proof. repeat split; discriminate. Qed.

(** C8 (amended): every setter of [ODataQuery] and of [Filter] checks the
    type of its value when it is assigned and raises a [ValueError] that
    says what was expected: [count] wants a bool, [expand] a string,
    [filter] a [Filter], [select] a list and strings in it, [top] an
    integer, [constrains] a list and [Constrain] objects in it,
    [logical_connector] a [LogicalConnector].  The constructor of
    [Constrain] checks nothing and stores its three arguments. *)
Theorem setters_fail_fast :
  (forall q v, type v <> TBool ->
               set_count q v = Raise (ValueError "count must be boolean"))
  /\ (forall q v, type v <> TStr ->
                  set_expand q v = Raise (ValueError "expand must be string"))
  /\ (forall q v, type v <> TFilter ->
                  set_filter q v = Raise (ValueError "filter must of Filter type"))
  /\ (forall q v, type v <> TList ->
                  set_select q v = Raise (ValueError "select must be list of strings"))
  /\ (forall q l, Exists (fun x => type x <> TStr) l ->
                  set_select q (PyList l)
                  = Raise (ValueError "all values should be strings"))
  /\ (forall q v, type v <> TInt ->
                  set_top q v = Raise (ValueError "top must be integer"))
  /\ (forall f v, type v <> TList ->
                  Filter_set_constrains f v
                  = Raise (ValueError "constrains must be list"))
  /\ (forall f l, Exists (fun x => type x <> TConstrain) l ->
                  Filter_set_constrains f (PyList l)
                  = Raise (ValueError "all values must be constrains"))
  /\ (forall f v, type v <> TLogicalConnector ->
                  Filter_set_logical_connector f v
                  = Raise (ValueError "logical connector must be of type LogicalConnector"))
  /\ (forall a o v, Constrain___init__ a o v = Ok (Build_Constrain a o v)).
Proof.
  repeat split.
  1-4, 6-7, 9: intros ? v Hv; destruct v; try reflexivity; now contradiction Hv.
  - intros q l Hl. cbn [set_select]. now rewrite all_strings_rejects.
  - intros f l Hl. cbn [Filter_set_constrains]. now rewrite all_constrains_rejects.
Qed.

Lemma setters_fail_fast_witness :
  set_count ODataQuery___init__ (PyInt 1) = Raise (ValueError "count must be boolean")
  /\ set_select ODataQuery___init__ (PyStr "id")
     = Raise (ValueError "select must be list of strings")
  /\ set_select ODataQuery___init__ (PyList [PyStr "id"; PyInt 3])
     = Raise (ValueError "all values should be strings")
  /\ set_filter ODataQuery___init__ (PyStr "name eq 'x'")
     = Raise (ValueError "filter must of Filter type")
  /\ Filter_set_constrains Filter___init__ (PyList [PyStr "name eq 'x'"])
     = Raise (ValueError "all values must be constrains")
  /\ Filter_set_logical_connector Filter___init__ (PyStr "or")
     = Raise (ValueError "logical connector must be of type LogicalConnector").
Proof.
  destruct setters_fail_fast
    as (Hcount & _ & Hfilter & Hsel & Hsel' & _ & _ & Hcs & Hconn & _).
  refine (conj _ (conj _ (conj _ (conj _ (conj _ _))))).
  - apply Hcount; discriminate.
  - apply Hsel; discriminate.
  - apply Hsel'. apply Exists_cons_tl, Exists_cons_hd. discriminate.
  - apply Hfilter; discriminate.
  - apply Hcs. apply Exists_cons_hd. discriminate.
  - apply Hconn; discriminate.
Defined.

End ODataProofs.

(** ** The client *)

Module ClientProofs.
Import OData Client ClientSpec.

(** *** The refresh interval *)

(** C6, as stated, fails: on a managed client the assignment of 120 goes
    through and changes the stored interval. *)
Lemma interval_assignable_when_managed :
  _managed (self managed_state) = true
  /\ exists s', set_token_refresh_interval_sec 120 managed_state = (Ok tt, s')
                /\ _token_refresh_interval_sec (self s') = 120
                /\ _managed (self s') = true.
Proof. split; [reflexivity|]. eexists. repeat split. Qed.

(** C6 (amended): assigning [token_refresh_interval_sec] checks the range
    only, whether the client is managed or not: a value below 60 or above
    3600 raises [ValueError] at once and leaves the client and the world as
    they were, so no request is sent; a value from 60 to 3600 is stored.
    Assigning 30 fails. *)
Theorem interval_range_checked :
  (forall (value : Z) (s : state),
      value < 60 \/ 3600 < value ->
      set_token_refresh_interval_sec value s
      = (Raise (ValueError "refresh interval must be between 60 and 3600 seconds"), s))
  /\ (forall (value : Z) (s : state),
         60 <= value <= 3600 ->
         exists s', set_token_refresh_interval_sec value s = (Ok tt, s')
                    /\ _token_refresh_interval_sec (self s') = value
                    /\ _managed (self s') = _managed (self s)
                    /\ _token (self s') = _token (self s)
                    /\ env s' = env s)
  /\ (forall s : state,
         set_token_refresh_interval_sec 30 s
         = (Raise (ValueError "refresh interval must be between 60 and 3600 seconds"), s)).
Proof.
  assert (Hlow : forall value s, value < 60 \/ 3600 < value ->
             set_token_refresh_interval_sec value s
             = (Raise (ValueError "refresh interval must be between 60 and 3600 seconds"), s)).
  { intros value s H. unfold set_token_refresh_interval_sec.
    replace ((value <? 60) || (value >? 3600)) with true; [reflexivity|].
    symmetry. apply orb_true_iff. destruct H; [left|right]; lia. }
  split; [exact Hlow|]. split.
  - intros value s H. unfold set_token_refresh_interval_sec.
    replace ((value <? 60) || (value >? 3600)) with false.
    + eexists. repeat split.
    + symmetry. apply orb_false_iff. lia.
  - intros s. apply Hlow. lia.
Qed.

Lemma interval_range_checked_witness :
  set_token_refresh_interval_sec 4000 managed_state
  = (Raise (ValueError "refresh interval must be between 60 and 3600 seconds"),
     managed_state).
Proof. apply (proj1 interval_range_checked 4000 managed_state). right. lia. Defined.

(** *** Managed mode *)

Lemma manage_token_when_managed (a b c : string) (s : state) :
  _managed (self s) = true ->
  manage_token a b c s
  = (Raise (GraphClientException "Token is already managed"), s).
Proof.
  intros H. unfold manage_token, bindM, get_self. now rewrite H.
Qed.

Lemma manage_token_enters_managed (a b c : string) (s s1 : state) :
  manage_token a b c s = (Ok tt, s1) -> _managed (self s1) = true.
Proof.
  unfold manage_token, bindM at 1, get_self.
  destruct (_managed (self s)); [discriminate|].
  unfold try_except, bindM at 1.
  destruct (_refresh_token a b c s) as [[[]| e |] s'].
  - cbn. intros [= <-]. reflexivity.
  - unfold bindM, _log, raise. destruct (_enable_logging (self s')); discriminate.
  - discriminate.
Qed.

(** C4: on a client in managed mode [manage_token] raises
    [GraphClientException] and leaves the client and the world as they
    were: the token is the same and no request is sent.  This is what a
    second call meets after a first one that succeeded. *)
Theorem manage_token_twice (a b c a' b' c' : string) :
  (forall s : state,
      _managed (self s) = true ->
      manage_token a' b' c' s
      = (Raise (GraphClientException "Token is already managed"), s))
  /\ (forall s s1 : state,
         manage_token a b c s = (Ok tt, s1) ->
         manage_token a' b' c' s1
         = (Raise (GraphClientException "Token is already managed"), s1)).
Proof.
  split.
  - intros s. apply manage_token_when_managed.
  - intros s s1 H. apply manage_token_when_managed.
    eapply manage_token_enters_managed, H.
Qed.

Lemma manage_token_twice_witness :
  _token (self managed_state) = JStr "T0"
  /\ manage_token "app" "secret" "tenant" managed_state
     = (Raise (GraphClientException "Token is already managed"), managed_state).
Proof.
  split; [reflexivity|].
  refine (proj2 (manage_token_twice "app" "secret" "tenant" "app" "secret" "tenant")
            {| self := fresh; env := world_with [token_response "T0"] |}
            managed_state _).
  reflexivity.
Defined.

(** *** The decorator *)

Lemma headers_not_truthy (h : gmap string string) : truthy h = false -> h = ∅.
Proof.
  unfold truthy, headers_truth. intros H.
  apply negb_false_iff, bool_decide_eq_true in H. exact H.
Qed.

Lemma request_headers_lookup (c : GraphClient) (kw : kwargs) (t : string) :
  choose_token c kw = JStr t ->
  exists h, request_headers c kw = Ok h
            /\ forall k, h !! k = header_for t (extra_of kw) k.
Proof.
  intros Ht. unfold request_headers, extra_of, header_for. rewrite Ht.
  assert (Hbase : forall k : string,
             (<[ "Content-type" := "application/json" ]>
                ({[ "authorization" := bearer t ]} : gmap string string)) !! k
             = if decide (k = "Content-type") then Some "application/json"
               else if decide (k = "authorization") then Some (bearer t)
               else None).
  { intros k. rewrite lookup_insert, lookup_singleton.
    repeat case_decide; congruence. }
  unfold _build_auth_header. fold (bearer t).
  replace (if Str.startswith (Str.lower t) "bearer"
           then Ok ({[ "authorization" := t ]} : gmap string string)
           else Ok {[ "authorization" := "bearer " +:+ t ]})
    with (Ok ({[ "authorization" := bearer t ]} : gmap string string))
    by (unfold bearer; destruct (Str.startswith (Str.lower t) "bearer"); reflexivity).
  cbn [bind].
  destruct (extra_headers kw) as [extra|]; cbn [default]; unfold id.
  - destruct (truthy extra) eqn:Hextra.
    + eexists; split; [reflexivity|]. intros k.
      rewrite lookup_union, Hbase.
      destruct (extra !! k); repeat case_decide; reflexivity.
    + apply headers_not_truthy in Hextra as ->.
      eexists; split; [reflexivity|]. intros k. now rewrite lookup_empty, Hbase.
  - eexists; split; [reflexivity|]. intros k. now rewrite lookup_empty, Hbase.
Qed.

(** The token the decorator takes: the caller's when it is not empty, else
    the client's. *)
Lemma choose_token_given (c : GraphClient) (kw : kwargs) (t : string) :
  t <> "" ->
  token kw = Some t \/ (truthy (token kw) = false /\ _token c = JStr t) ->
  choose_token c kw = JStr t
  /\ (truthy (_token c) = true \/ truthy (token kw) = true).
Proof.
  intros Ht Hsource.
  assert (Htrue : truthy t = true) by (destruct t; [contradiction|reflexivity]).
  unfold choose_token. destruct Hsource as [-> | [Hkw Hc]].
  - rewrite Htrue. split; [reflexivity|]. right. exact Htrue.
  - split.
    + destruct (token kw) as [t'|]; [|exact Hc].
      change (truthy (Some t')) with (truthy t') in Hkw. now rewrite Hkw.
    + left. rewrite Hc. exact Htrue.
Qed.

(** C5: for every operation under the decorator, a call with no token of
    its own on a client that holds none raises the token-not-available
    error and leaves the world as it was, whatever the operation would have
    done, so no request is sent.  With a token [t] that is not empty, given
    by the caller or, when the caller gives none, held by the client, the
    operation is called with the caller's keyword arguments and, under
    [_req_headers], headers that hold, for every key, the caller's extra
    header if there is one, and otherwise [application/json] under
    [Content-type] and, under [authorization], [t] itself when it begins
    with [bearer] in any case and [bearer t] when it does not. *)
Theorem authorized_checks_token {A : Type} (func : kwargs -> M A) (kw : kwargs) (s : state) :
  (truthy (_token (self s)) = false -> truthy (token kw) = false ->
   authorized func kw s
   = (Raise (Exception "Token is not managed so you must explicitly provide it"), s))
  /\ (forall t : string,
         t <> "" ->
         token kw = Some t
         \/ (truthy (token kw) = false /\ _token (self s) = JStr t) ->
         exists h, authorized func kw s = func (handed_on kw h) s
                   /\ forall k, h !! k = header_for t (extra_of kw) k).
Proof.
  unfold authorized, bindM, get_self. split.
  - intros -> ->. reflexivity.
  - intros t Ht Hsource.
    destruct (choose_token_given (self s) kw t Ht Hsource) as [Hchoose Havail].
    destruct (request_headers_lookup (self s) kw t Hchoose) as (h & Hh & Hk).
    exists h. split; [|exact Hk].
    replace (negb (truthy (_token (self s))) && negb (truthy (token kw))) with false
      by (destruct Havail as [-> | ->]; [|rewrite andb_false_r]; reflexivity).
    unfold lift. now rewrite Hh.
Qed.

Lemma authorized_checks_token_witness :
  authorized always_get no_kwargs
    {| self := fresh; env := world_with [token_response "unused"] |}
  = (Raise (Exception "Token is not managed so you must explicitly provide it"),
     {| self := fresh; env := world_with [token_response "unused"] |})
  /\ (exists h,
        authorized always_get (with_token "Bearer abc" (Some {[ "Content-type" := "text/plain" ]}))
          {| self := fresh; env := world_with [] |}
        = always_get
            {| token := Some "Bearer abc";
               extra_headers := Some {[ "Content-type" := "text/plain" ]};
               expected_statuses := None; odata_query := None;
               _req_headers := Some h |}
            {| self := fresh; env := world_with [] |}
        /\ h !! "authorization" = Some "Bearer abc"
        /\ h !! "Content-type" = Some "text/plain")
  /\ (exists h,
        authorized always_get no_kwargs managed_state
        = always_get
            {| token := None; extra_headers := None; expected_statuses := None;
               odata_query := None; _req_headers := Some h |}
            managed_state
        /\ h !! "authorization" = Some "bearer T0"
        /\ h !! "Content-type" = Some "application/json").
Proof.
  refine (conj _ (conj _ _)).
  - apply (proj1 (authorized_checks_token always_get no_kwargs _)); reflexivity.
  - destruct (proj2 (authorized_checks_token always_get
                       (with_token "Bearer abc" (Some {[ "Content-type" := "text/plain" ]}))
                       {| self := fresh; env := world_with [] |})
                "Bearer abc" ltac:(discriminate) (or_introl eq_refl)) as (h & Hrun & Hk).
    exists h. split; [exact Hrun|]. split; rewrite Hk; reflexivity.
  - destruct (proj2 (authorized_checks_token always_get no_kwargs managed_state)
                "T0" ltac:(discriminate) (or_intror (conj eq_refl eq_refl)))
      as (h & Hrun & Hk).
    exists h. split; [exact Hrun|]. split; rewrite Hk; reflexivity.
Defined.

(** *** Requests *)

Lemma existsb_default (st : Z) :
  existsb (Z.eqb st) DEFAULT_EXPECTED = true <-> In st DEFAULT_EXPECTED.
Proof.
  rewrite existsb_exists. split.
  - intros (x & Hx & Heq). apply Z.eqb_eq in Heq. now subst.
  - intros H. exists st. split; [exact H | apply Z.eqb_refl].
Qed.

(** C3, on the code: a response whose status is among the expected ones
    but which has no [Content-Type] header is not returned.  With the
    default expected statuses, a 200 response and a 204 response without
    that header make [_request] raise [KeyError], after the request was
    sent and before the status is looked at. *)
Theorem request_without_content_type :
  In (status untyped_response) DEFAULT_EXPECTED
  /\ _request "GET" "https://graph.microsoft.com/v1.0/users" None None None
       {| self := fresh; env := world_with [untyped_response] |}
     = (Raise (KeyError "Content-Type"),
        after_request
          {| method := "GET"; url := "https://graph.microsoft.com/v1.0/users";
             headers := None; data := None |}
          {| self := fresh; env := world_with [untyped_response] |})
  /\ In (status no_content_response) DEFAULT_EXPECTED
  /\ _request "DELETE" "https://graph.microsoft.com/v1.0/subscriptions/7" None None None
       {| self := fresh; env := world_with [no_content_response] |}
     = (Raise (KeyError "Content-Type"),
        after_request
          {| method := "DELETE";
             url := "https://graph.microsoft.com/v1.0/subscriptions/7";
             headers := None; data := None |}
          {| self := fresh; env := world_with [no_content_response] |}).
Proof.
  refine (conj _ (conj _ (conj _ _))).
  - left; reflexivity.
  - reflexivity.
  - right; left; reflexivity.
  - reflexivity.
Qed.

(** What [_request] does with a response whose payload [r] is read (the
    response has a [Content-Type] header and, if that says JSON, a body
    that decodes) when the caller gives no expected statuses: the expected
    statuses are OK, NO_CONTENT and CREATED; with the status among them
    [_request] returns the payload and the status, and otherwise it raises
    the error of the kind the table gives for the status, or of the unknown
    kind for a status the table does not hold, with the payload and the
    headers of the response in it.  A 404 raises the not-found kind with
    the payload. *)
Theorem request_classifies_status (method_ url_ : string)
        (headers_ : option (gmap string string)) (data_ : option body)
        (expected : option (list Z)) (s : state)
        (resp : response) (rest : list response) (r : payload) :
  not_provided expected ->
  pending (env s) = resp :: rest ->
  read_payload resp = Ok r ->
  let req := {| method := method_; url := url_; headers := headers_; data := data_ |} in
  let out := _request method_ url_ headers_ data_ expected s in
  (In (status resp) [OK; NO_CONTENT; CREATED] ->
   out = (Ok (r, status resp), after_request req s))
  /\ (~ In (status resp) [OK; NO_CONTENT; CREATED] ->
      out = (Raise (ApiError (exception_for (status resp)) r (resp_hdrs resp)),
             after_request req s)
      /\ (forall kind, status2exception (status resp) = Some kind ->
                       exception_for (status resp) = kind)
      /\ (status2exception (status resp) = None ->
          exception_for (status resp) = UnknownError))
  /\ (status resp = 404 ->
      out = (Raise (ApiError NotFound r (resp_hdrs resp)), after_request req s)).
Proof.
  intros Hnp Hpending Hr req out.
  assert (Hout : out = if existsb (Z.eqb (status resp)) DEFAULT_EXPECTED
                       then (Ok (r, status resp), after_request req s)
                       else (Raise (ApiError (exception_for (status resp)) r (resp_hdrs resp)),
                             after_request req s)).
  { subst out. unfold _request.
    replace (match expected with
             | Some l => if truthy l then l else DEFAULT_EXPECTED
             | None => DEFAULT_EXPECTED
             end) with DEFAULT_EXPECTED by (destruct Hnp as [-> | ->]; reflexivity).
    unfold bindM, session_request. rewrite Hpending.
    unfold lift. rewrite Hr. unfold after_request. rewrite Hpending. cbn [tail].
    destruct (existsb (Z.eqb (status resp)) DEFAULT_EXPECTED); reflexivity. }
  rewrite Hout. split; [|split].
  - intros Hin. apply existsb_default in Hin. now rewrite Hin.
  - intros Hnin. split; [|split].
    + destruct (existsb (Z.eqb (status resp)) DEFAULT_EXPECTED) eqn:E; [|reflexivity].
      apply existsb_default in E. contradiction.
    + intros kind Hk. unfold exception_for. now rewrite Hk.
    + intros Hk. unfold exception_for. now rewrite Hk.
  - intros H404. rewrite H404. reflexivity.
Qed.

Lemma request_classifies_status_witness :
  _request "GET" "https://graph.microsoft.com/v1.0/users/42" None None None
    {| self := fresh; env := world_with [not_found_response] |}
  = (Raise (ApiError NotFound (PJson not_found_body) [("Content-Type", "application/json")]),
     {| self := fresh;
        env := {| pending := [];
                  sent := [{| method := "GET";
                              url := "https://graph.microsoft.com/v1.0/users/42";
                              headers := None; data := None |}];
                  log := [] |} |}).
Proof.
  refine (proj2 (proj2 (request_classifies_status
                   "GET" "https://graph.microsoft.com/v1.0/users/42" None None None
                   {| self := fresh; env := world_with [not_found_response] |}
                   not_found_response [] (PJson not_found_body) _ _ _)) _).
  - left; reflexivity.
  - reflexivity.
  - reflexivity.
  - reflexivity.
Defined.

Lemma existsb_expected (st : Z) (expected : option (list Z)) :
  In st (expected_or_default expected) ->
  existsb (Z.eqb st)
    (match expected with
     | Some l => if truthy l then l else DEFAULT_EXPECTED
     | None => DEFAULT_EXPECTED
     end) = true.
Proof.
  intros Hin. apply existsb_exists. exists st. split; [|apply Z.eqb_refl].
  destruct expected as [[|x l]|]; exact Hin.
Qed.

Lemma after_request_requests (req : request) (reqs : list request) (s : state) :
  pending (env s) <> [] ->
  after_requests reqs (after_request req s) = after_requests (req :: reqs) s.
Proof.
  intros Hp. unfold after_requests, after_request. cbn.
  destruct (pending (env s)) as [|resp rest]; [contradiction|].
  cbn. now rewrite <- app_assoc.
Qed.

Lemma after_no_requests (s : state) : after_requests [] s = s.
Proof.
  unfold after_requests. destruct s as [c [p se l]]. cbn.
  now rewrite drop_0, app_nil_r.
Qed.

Section Pages.
Context `{Constants}.
Variables (c : GraphClient) (kw : kwargs) (h : gmap string string).
Hypothesis Havailable : token_available c kw.
Hypothesis Hheaders : request_headers c kw = Ok h.

(** A GET under the decorator, answered by a response that carries a page,
    followed by the reading of the page. *)
Lemma fetch_page (mk_url : kwargs -> result string) (u : string)
      (s : state) (resp : response) (rest : list response) (p : page) :
  self s = c ->
  mk_url (with_req_headers kw h) = Ok u ->
  pending (env s) = resp :: rest ->
  carries (expected_statuses kw) resp p ->
  bindM (authorized (fun kw0 =>
           url_ <~ lift (mk_url kw0);;
           _request "GET" url_ (_req_headers kw0) None (expected_statuses kw0))
           (with_req_headers kw h))
        (fun p0 => open_page (fst p0) (with_req_headers kw h)) s
  = (Ok (Fetched, Suspended (items p) (next_link p) (with_req_headers kw h)),
     after_request (get_request h u) s).
Proof.
  intros Hself Hu Hpending (Hst & ct & members & Hct & Hjson & Hbody & Hvalue & Hnext).
  set (kw' := with_req_headers kw h) in *.
  assert (Hcheck : negb (truthy (_token c)) && negb (truthy (token kw')) = false).
  { destruct Havailable as [-> | Ht]; [reflexivity|].
    unfold kw'. cbn [token with_req_headers]. rewrite Ht. apply andb_false_r. }
  assert (Hexp : existsb (Z.eqb (status resp))
                   (match expected_statuses kw' with
                    | Some l => if truthy l then l else DEFAULT_EXPECTED
                    | None => DEFAULT_EXPECTED
                    end) = true) by exact (existsb_expected _ _ Hst).
  assert (Hheaders' : request_headers c kw' = Ok h) by exact Hheaders.
  cbv beta delta [authorized bindM get_self lift _request session_request ret
                  open_page read_payload raise].
  cbv beta zeta. rewrite Hself, Hcheck, Hheaders'.
  change (with_req_headers kw' h) with kw'. rewrite Hu. cbv beta zeta.
  rewrite Hpending, Hct.
  cbn [bind]. rewrite Hjson, Hbody. cbn [bind]. rewrite Hexp.
  cbn [fst]. rewrite Hnext, Hvalue. cbn [iter].
  unfold after_request, get_request. now rewrite Hpending.
Qed.

Variable first : kwargs -> result string.

Lemma created_fetches (u : string) :
  first (with_req_headers kw h) = Ok u ->
  fetches first c kw h (Created (with_req_headers kw h)) u.
Proof.
  intros Hu s resp rest p Hself Hpending Hcarries.
  unfold pages_step, step, body_step.
  now rewrite (fetch_page first u s resp rest p Hself Hu Hpending Hcarries).
Qed.

Lemma suspended_fetches (u : string) :
  u <> "" -> fetches first c kw h (Suspended [] (JStr u) (with_req_headers kw h)) u.
Proof.
  intros Hu s resp rest p Hself Hpending Hcarries.
  unfold pages_step, step, body_step.
  replace (truthy (JStr u)) with true by (destruct u; [contradiction|reflexivity]).
  unfold list_more_users.
  now rewrite (fetch_page (fun _ => url_of (JStr u)) u s resp rest p
                 Hself eq_refl Hpending Hcarries).
Qed.

(** While items are left, a step yields the next one and nothing else
    happens: no request is sent. *)
Lemma step_yields (item : json) (rest : list json) (n : json) (k : kwargs) (s : state) :
  pages_step first (Suspended (item :: rest) n k) s
  = (Ok (Yielded item), Suspended rest n k, s).
Proof. reflexivity. Qed.

Lemma run_yields (its : list json) (n : json) (k : kwargs) (s : state) (fuel : nat) :
  async_for (length its + fuel) (pages_step first) (Suspended its n k) s
  = let '(evs, e, s') := async_for fuel (pages_step first) (Suspended [] n k) s in
    (map Yielded its ++ evs, e, s').
Proof.
  induction its as [|item its IH].
  - cbn [length map app Nat.add].
    now destruct (async_for fuel (pages_step first) _ s) as [[? ?] ?].
  - cbn [length Nat.add async_for]. rewrite step_yields, IH.
    now destruct (async_for fuel (pages_step first) _ s) as [[? ?] ?].
Qed.

Lemma run_stops (k : kwargs) (s : state) (fuel : nat) :
  async_for (S fuel) (pages_step first) (Suspended [] JNull k) s = ([], Exhausted, s).
Proof. reflexivity. Qed.

(** From a generator about to ask for the first of the pages, the run
    makes the trace of the pages and ends, with one request a page. *)
Lemma run_pages (resps : list response) (ps : list page) :
  Forall2 (carries (expected_statuses kw)) resps ps ->
  chained ps ->
  forall (g : generator) (u : string) (s : state) (rest : list response) (extra : nat),
    fetches first c kw h g u ->
    self s = c ->
    pending (env s) = resps ++ rest ->
    async_for (S (length (trace ps)) + extra) (pages_step first) g s
    = (trace ps, Exhausted,
       after_requests (map (get_request h) (u :: omap next (removelast ps))) s).
Proof.
  induction 1 as [|resp p resps ps Hcarries Hall IH]; [intros []|].
  intros Hchain g u s rest extra Hg Hself Hpending.
  assert (Hne : pending (env s) <> []) by now rewrite Hpending.
  unfold trace. cbn [map concat]. fold (trace ps).
  cbn [length Nat.add async_for].
  rewrite (Hg s resp (resps ++ rest) p Hself Hpending Hcarries).
  replace (length ((Fetched :: map Yielded (items p)) ++ trace ps) + extra)%nat
    with (length (items p) + (S (length (trace ps)) + extra))%nat
    by (cbn [app length]; rewrite length_app, length_map; lia).
  rewrite run_yields.
  destruct ps as [|p' ps].
  - (* the last page *)
    inversion Hall; subst. cbn in Hchain. unfold next_link. rewrite Hchain.
    cbn [trace map concat length Nat.add]. rewrite run_stops.
    change (omap next (removelast [p])) with (@nil string). cbn [map].
    rewrite <- (after_request_requests _ [] s Hne), after_no_requests.
    reflexivity.
  - destruct Hchain as [(u' & Hnext & Hu') Hchain].
    unfold next_link. rewrite Hnext.
    rewrite (IH Hchain (Suspended [] (JStr u') (with_req_headers kw h)) u'
                (after_request (get_request h u) s) rest extra
                (suspended_fetches u' Hu') Hself).
    + rewrite after_request_requests by exact Hne.
      change (removelast (p :: p' :: ps)) with (p :: removelast (p' :: ps)).
      generalize (removelast (p' :: ps)); intros l.
      cbn. now rewrite Hnext.
    + unfold after_request. cbn. now rewrite Hpending.
Qed.

End Pages.


Lemma authorized_creates (kw : kwargs) (s : state) (h : gmap string string) :
  token_available (self s) kw ->
  request_headers (self s) kw = Ok h ->
  authorized (fun kw0 => ret (Created kw0)) kw s = (Ok (Created (with_req_headers kw h)), s).
Proof.
  intros Havailable Hheaders. unfold authorized, bindM, get_self, lift.
  replace (negb (truthy (_token (self s))) && negb (truthy (token kw))) with false
    by (destruct Havailable as [-> | ->]; [|rewrite andb_false_r]; reflexivity).
  now rewrite Hheaders.
Qed.


(** The same for the mails of a user. *)
Theorem list_all_user_mails_yields_pages `{Constants} (user_id : string)
        (kw : kwargs) (s : state) (h : gmap string string) (url0 : string)
        (resps : list response) (ps : list page) (rest : list response) :
  token_available (self s) kw ->
  request_headers (self s) kw = Ok h ->
  _build_url V1_EP [(USERS, Some user_id); (MAILS, None)] (odata_query kw) = Ok url0 ->
  pending (env s) = resps ++ rest ->
  Forall2 (carries (expected_statuses kw)) resps ps ->
  chained ps ->
  exists g,
    list_all_user_mails user_id kw s = (Ok g, s)
    /\ (forall extra : nat,
           async_for (S (length (trace ps)) + extra) (list_all_user_mails_step user_id) g s
           = (trace ps, Exhausted,
              after_requests
                (map (get_request h) (url0 :: omap next (removelast ps))) s)).
Proof.
  intros Havailable Hheaders Hurl Hpending Hcarries Hchain.
  exists (Created (with_req_headers kw h)). split.
  - now apply authorized_creates.
  - intros extra.
    apply (run_pages (self s) kw h Havailable Hheaders
             (fun kw0 => _build_url V1_EP [(USERS, Some user_id); (MAILS, None)]
                                    (odata_query kw0))
             resps ps Hcarries Hchain (Created (with_req_headers kw h)) url0 s rest extra).
    + apply created_fetches; assumption.
    + reflexivity.
    + exact Hpending.
Qed.



End ClientProofs.

(** ** More on the query builder *)

Module ODataExtras.
Import OData ODataSpec ExtraSpec ODataProofs.

Lemma startswith_mark (s : string) : Str.startswith ("?" +:+ s) "?" = true.
Proof.
  unfold Str.startswith. change ("?" +:+ s) with (String "?" s).
  cbn [String.prefix]. destruct (ascii_dec "?" "?"); [|contradiction].
  now destruct s.
Qed.

(** X1: whatever the fields hold, a query string that [__str__] returns is
    the sentinel or begins with the question mark, and the sentinel does not
    begin with it. *)
Theorem query_string_shape (q : ODataQuery) (s : string) :
  ODataQuery___str__ q = Ok s ->
  (s = EMPTY_QUERY \/ Str.startswith s "?" = true)
  /\ Str.startswith EMPTY_QUERY "?" = false.
Proof.
  intros Hs. split; [|reflexivity]. rewrite str_clauses in Hs.
  destruct (negb (truthy (_count q)) && negb (truthy (_expand q))
            && negb (truthy (_filter q)) && negb (truthy (_select q))
            && negb (truthy (_top q))).
  - left. congruence.
  - right.
    destruct (lowered (populated (_expand q))); cbn [bind] in Hs; try discriminate.
    destruct (filter_and_constrains q); [destruct (_build_filter q)|];
      cbn [bind] in Hs; try discriminate;
      (destruct (printed (populated (_top q))); cbn [bind] in Hs; try discriminate;
       injection Hs as <-; apply startswith_mark).
Qed.

Lemma query_string_shape_witness :
  Str.startswith "?$top=50" "?" = true.
Proof.
  destruct (proj1 (query_string_shape top_50 "?$top=50" eq_refl)) as [H | H].
  - discriminate H.
  - exact H.
Defined.

(** X2: a filter that fails makes the query string fail.  When the filter
    holds a constraint and [_build_filter] raises, [__str__] raises the
    same exception, whatever [count], [select] and [top] hold and for an
    [expand] that is unset or ASCII text: the pairs made before the filter
    are dropped. *)
Theorem filter_failure_fails_query_string (q : ODataQuery) (e : exn) :
  has_constraints q ->
  (forall x, _expand q = Some x -> Str.is_ascii x = true) ->
  _build_filter q = Raise e ->
  ODataQuery___str__ q = Raise e.
Proof.
  intros (f & c & cs & Hf & Hcs) Hexpand He.
  rewrite str_clauses, (lowered_ascii _ Hexpand). cbn [bind].
  unfold filter_and_constrains. rewrite He, Hf, Hcs.
  replace (negb (truthy (_count q)) && negb (truthy (_expand q))
           && negb (truthy (Some f)) && negb (truthy (_select q))
           && negb (truthy (_top q))) with false
    by (destruct (truthy (_count q)), (truthy (_expand q)); reflexivity).
  reflexivity.
Qed.

Lemma filter_failure_fails_query_string_witness :
  ODataQuery___str__ unconnected
  = Raise (AttributeError "'NoneType' object has no attribute 'name'").
Proof.
  apply (filter_failure_fails_query_string unconnected).
  - exists (Build_Filter
              (Some [typed ("name", EQ, "'x'"); typed ("age", GT, "'10'")]) None),
      (typed ("name", EQ, "'x'")), [typed ("age", GT, "'10'")].
    split; reflexivity.
  - intros x Hx. discriminate Hx.
  - reflexivity.
Defined.

(** X3: the connector of a filter is read from the second constraint on.
    A filter with one constraint and no connector gives the text of that
    constraint; a filter with two constraints or more and no connector
    raises [AttributeError]. *)
Theorem connector_needed_from_second_constraint
        (c c' : string * LogicalOperator * string)
        (cs : list (string * LogicalOperator * string)) :
  _build_filter (filter_query [typed c] None) = Ok (render c)
  /\ ODataQuery___str__ (filter_query [typed c] None)
     = Ok ("?$filter=" +:+ render c)
  /\ _build_filter (filter_query (map typed (c :: c' :: cs)) None)
     = Raise (AttributeError "'NoneType' object has no attribute 'name'").
Proof.
  assert (H1 : _build_filter (filter_query [typed c] None) = Ok (render c)).
  { unfold _build_filter. cbn [filter_query only_filter _filter _constrains
                                 _logical_connector _build_filter_loop].
    cbn [truthy string_truth bind]. rewrite Constrain_str_typed. reflexivity. }
  split; [exact H1|]. split.
  - unfold ODataQuery___str__. cbn [filter_query only_filter _count _expand _filter
                                     _select _top filter_and_constrains _constrains].
    cbn [truthy option_truth list_truth Filter_truth negb andb].
    fold (filter_query [typed c] None). rewrite H1. reflexivity.
  - unfold _build_filter. cbn [filter_query only_filter _filter _constrains
                                 _logical_connector map _build_filter_loop].
    cbn [truthy string_truth bind]. rewrite Constrain_str_typed. cbn [bind].
    rewrite append_nil_l, render_truthy. reflexivity.
Qed.

(** X4: values are put into a filter as they are.  For an operator whose
    template ends with the value, one constraint whose value goes on with
    a connector and a second constraint gives the same filter text as the
    two constraints joined by that connector. *)
Theorem filter_value_not_escaped (a v : string) (o : LogicalOperator)
        (c2 : string * LogicalOperator * string) (conn : LogicalConnector)
        (any : option LogicalConnector) :
  infix_operator o = true ->
  _build_filter (filter_query [typed (a, o, v +:+ separator conn +:+ render c2)] any)
  = _build_filter (filter_query [typed (a, o, v); typed c2] (Some conn)).
Proof.
  intros Ho.
  transitivity (Ok (render (a, o, v +:+ separator conn +:+ render c2))).
  - unfold _build_filter. cbn [filter_query only_filter _filter _constrains
                                 _logical_connector _build_filter_loop].
    cbn [truthy string_truth bind]. rewrite Constrain_str_typed. reflexivity.
  - symmetry. unfold _build_filter.
    cbn [filter_query only_filter _filter _constrains _logical_connector].
    change [typed (a, o, v); typed c2] with (map typed [(a, o, v); c2]).
    rewrite (build_filter_loop_join conn (a, o, v) [c2]).
    cbn [map]. rewrite join_cons2. cbn [Str.join String.concat].
    destruct o; try discriminate Ho; cbn [render]; now rewrite !append_assoc.
Qed.

Lemma filter_value_not_escaped_witness :
  _build_filter (filter_query [typed ("name", EQ, "'x' or age gt '10'")] None)
  = _build_filter (filter_query [typed ("name", EQ, "'x'"); typed ("age", GT, "'10'")]
                                (Some OR)).
Proof.
  exact (filter_value_not_escaped "name" "'x'" EQ ("age", GT, "'10'") OR None eq_refl).
Defined.

(** X5: a list of strings given to [select] comes back from the query,
    with the other fields as they were, and a list of constraints given to
    [constrains] comes back from the filter, with its connector as it was. *)
Theorem lists_are_stored (q : ODataQuery) (f : Filter)
        (ss : list string) (cs : list Constrain) :
  (exists q', set_select q (PyList (map PyStr ss)) = Ok q'
              /\ _select q' = Some ss
              /\ _count q' = _count q /\ _expand q' = _expand q
              /\ _filter q' = _filter q /\ _top q' = _top q)
  /\ (exists f', Filter_set_constrains f (PyList (map PyConstrain cs)) = Ok f'
                 /\ _constrains f' = Some cs
                 /\ _logical_connector f' = _logical_connector f).
Proof.
  assert (Hss : all_strings (map PyStr ss) = Ok ss).
  { induction ss as [|x ss IH]; [reflexivity|]. cbn [map all_strings]. now rewrite IH. }
  assert (Hcs : all_constrains (map PyConstrain cs) = Ok cs).
  { induction cs as [|x cs IH]; [reflexivity|]. cbn [map all_constrains]. now rewrite IH. }
  split.
  - eexists. cbn [set_select]. rewrite Hss. cbn [bind]. repeat split.
  - eexists. cbn [Filter_set_constrains]. rewrite Hcs. cbn [bind]. repeat split.
Qed.

End ODataExtras.

(** ** More on the client *)

Module ClientExtras.
Import OData Client ODataSpec ClientSpec ExtraSpec ClientProofs.

(** *** Requests *)

Lemma request_state (method_ url_ : string) (headers_ : option (gmap string string))
      (data_ : option body) (expected : option (list Z)) (s : state) :
  snd (_request method_ url_ headers_ data_ expected s)
  = after_request (request_of method_ url_ headers_ data_) s.
Proof.
  unfold _request, bindM, session_request, lift, ret, raise, after_request, request_of.
  destruct (pending (env s)) as [|resp rest]; [reflexivity|].
  destruct (read_payload resp); [|reflexivity..].
  now destruct (existsb _ _).
Qed.

Lemma request_outcome (method_ url_ : string) (headers_ : option (gmap string string))
      (data_ : option body) (expected : option (list Z)) (s : state)
      (resp : response) (rest : list response) :
  pending (env s) = resp :: rest ->
  fst (_request method_ url_ headers_ data_ expected s)
  = (r <- read_payload resp;;
     if existsb (Z.eqb (status resp))
          (match expected with
           | Some l => if truthy l then l else DEFAULT_EXPECTED
           | None => DEFAULT_EXPECTED
           end)
     then Ok (r, status resp)
     else Raise (ApiError (exception_for (status resp)) r (resp_hdrs resp))).
Proof.
  intros Hp. unfold _request, bindM, session_request, lift, ret, raise.
  rewrite Hp. destruct (read_payload resp); [|reflexivity..]. cbn [bind].
  now destruct (existsb _ _).
Qed.

(** X6: whatever the response and whatever the outcome, [_request] leaves
    the client object and the log as they were, adds exactly its own
    request to the requests sent, and takes the first pending response, if
    there is one, and no other. *)
Theorem request_sends_once (method_ url_ : string)
        (headers_ : option (gmap string string)) (data_ : option body)
        (expected : option (list Z)) (s : state) :
  let s' := snd (_request method_ url_ headers_ data_ expected s) in
  self s' = self s
  /\ sent (env s') = sent (env s) ++ [request_of method_ url_ headers_ data_]
  /\ pending (env s') = tail (pending (env s))
  /\ log (env s') = log (env s).
Proof.
  intros s'. subst s'. rewrite request_state. repeat split.
Qed.

(** X7: a list of expected statuses given by the caller, when it is not
    empty, stands in place of the default: a status in the list is
    returned with the payload, and a status outside it raises, also when it
    is one of OK, NO_CONTENT and CREATED. *)
Theorem request_expected_statuses_given (method_ url_ : string)
        (headers_ : option (gmap string string)) (data_ : option body)
        (st : Z) (l : list Z) (s : state)
        (resp : response) (rest : list response) (r : payload) :
  pending (env s) = resp :: rest ->
  read_payload resp = Ok r ->
  let out := fst (_request method_ url_ headers_ data_ (Some (st :: l)) s) in
  (In (status resp) (st :: l) -> out = Ok (r, status resp))
  /\ (~ In (status resp) (st :: l) ->
      out = Raise (ApiError (exception_for (status resp)) r (resp_hdrs resp))).
Proof.
  intros Hp Hr out. subst out. rewrite (request_outcome _ _ _ _ _ _ _ _ Hp), Hr.
  cbn [bind truthy list_truth]. split.
  - intros Hin.
    replace (existsb (Z.eqb (status resp)) (st :: l)) with true; [reflexivity|].
    symmetry. apply existsb_exists. exists (status resp). split; [exact Hin|].
    apply Z.eqb_refl.
  - intros Hnin.
    destruct (existsb (Z.eqb (status resp)) (st :: l)) eqn:E; [|reflexivity].
    apply existsb_exists in E. destruct E as (x & Hx & Heq).
    apply Z.eqb_eq in Heq. now subst.
Qed.

Lemma request_expected_statuses_given_witness :
  fst (_request "GET" "https://graph.microsoft.com/v1.0/users/7" None None
         (Some [202]) (state_with [ok_response]))
  = Raise (ApiError UnknownError (PJson (JObj [("id", JNum 7)]))
             [("content-type", "application/json")]).
Proof.
  refine (proj2 (request_expected_statuses_given
                   "GET" "https://graph.microsoft.com/v1.0/users/7" None None
                   202 [] (state_with [ok_response]) ok_response []
                   (PJson (JObj [("id", JNum 7)])) eq_refl eq_refl) _).
  intros [H | []]. discriminate H.
Defined.

(** X8: the payload is read before the status is looked at: when reading
    it raises (no [Content-Type] header, or a JSON body that does not
    decode), [_request] raises that exception whatever the status and the
    expected statuses are, so an error status with such a body does not
    give the error of its kind. *)
Theorem request_payload_error_first (method_ url_ : string)
        (headers_ : option (gmap string string)) (data_ : option body)
        (expected : option (list Z)) (s : state)
        (resp : response) (rest : list response) (e : exn) :
  pending (env s) = resp :: rest ->
  read_payload resp = Raise e ->
  fst (_request method_ url_ headers_ data_ expected s) = Raise e.
Proof.
  intros Hp He. now rewrite (request_outcome _ _ _ _ _ _ _ _ Hp), He.
Qed.

Lemma request_payload_error_first_witness :
  status broken_response = 500
  /\ fst (_request "GET" "https://graph.microsoft.com/v1.0/users" None None None
            (state_with [broken_response]))
     = Raise (ValueError "Expecting value: line 1 column 1 (char 0)").
Proof.
  split; [reflexivity|].
  exact (request_payload_error_first
           "GET" "https://graph.microsoft.com/v1.0/users" None None None
           (state_with [broken_response]) broken_response [] _ eq_refl eq_refl).
Defined.

(** X9: [acquire_token] does not touch the client object, whatever comes
    back: it sends one POST, without headers, to the token URL of the
    tenant, with the four fields of the client-credentials grant, and the
    stored token is the one from before. *)
Theorem acquire_token_keeps_client (app_id app_secret tenant_id : string) (s : state) :
  let s' := snd (acquire_token app_id app_secret tenant_id s) in
  self s' = self s
  /\ sent (env s') = sent (env s) ++ [token_request app_id app_secret tenant_id]
  /\ _token (self s') = _token (self s).
Proof.
  intros s'. subst s'. unfold acquire_token. rewrite request_state. repeat split.
Qed.

(** *** The token *)

Lemma acquire_token_state (a b c : string) (s : state) :
  snd (acquire_token a b c s) = after_request (token_request a b c) s.
Proof. unfold acquire_token. now rewrite request_state. Qed.

(** What [_refresh_token] does, by the outcome of the request and of the
    lookup of [access_token]. *)
Lemma refresh_token_cases (a b c : string) (s : state) :
  _refresh_token a b c s
  = match fst (acquire_token a b c s) with
    | Ok p =>
        match getitem (fst p) "access_token" with
        | Ok tok =>
            (Ok tt,
             {| self := holding (self s) tok;
                env := logged (self s) refreshed_record
                         (env (after_request (token_request a b c) s)) |})
        | Raise e => (Raise e, after_request (token_request a b c) s)
        | NotModelled => (NotModelled, after_request (token_request a b c) s)
        end
    | Raise e => (Raise e, after_request (token_request a b c) s)
    | NotModelled => (NotModelled, after_request (token_request a b c) s)
    end.
Proof.
  unfold _refresh_token, bindM at 1.
  pose proof (acquire_token_state a b c s) as Hs.
  destruct (acquire_token a b c s) as [r s1]. cbn [fst snd] in *. subst s1.
  destruct r as [p | e |]; [|reflexivity..].
  unfold bindM at 1, lift. destruct (getitem (fst p) "access_token"); [|reflexivity..].
  unfold bindM, set_token, get_self, put_self, _log, logged, holding, after_request.
  cbn. now destruct (_enable_logging (self s)).
Qed.

Lemma acquire_token_outcome (a b c : string) (s : state)
      (resp : response) (rest : list response) (tok : json) :
  pending (env s) = resp :: rest ->
  grants resp tok ->
  exists p, fst (acquire_token a b c s) = Ok p
            /\ getitem (fst p) "access_token" = Ok tok.
Proof.
  intros Hp (Hst & r & Hr & Htok). exists (r, status resp). split; [|exact Htok].
  unfold acquire_token. rewrite (request_outcome _ _ _ _ _ _ _ _ Hp), Hr. cbn [bind].
  apply existsb_default in Hst. now rewrite Hst.
Qed.

(** X10: [_refresh_token] changes nothing of the client but the token.
    When the request or the lookup of [access_token] raises, the client
    object is as before, so the token from before stays; when the call
    returns, the client differs from the one before in its token only, and
    one request was sent.  On a response that carries a token, that token
    is stored. *)
Theorem refresh_token_replaces_token_only (a b c : string) (s : state) :
  (forall e, fst (_refresh_token a b c s) = Raise e ->
             self (snd (_refresh_token a b c s)) = self s)
  /\ (forall s', _refresh_token a b c s = (Ok tt, s') ->
                 (exists tok, self s' = holding (self s) tok)
                 /\ sent (env s') = sent (env s) ++ [token_request a b c])
  /\ (forall resp rest tok,
         pending (env s) = resp :: rest -> grants resp tok ->
         exists s', _refresh_token a b c s = (Ok tt, s')
                    /\ _token (self s') = tok).
Proof.
  rewrite refresh_token_cases. split; [|split].
  - intros e. destruct (fst (acquire_token a b c s)) as [p | e' |];
      [destruct (getitem (fst p) "access_token")|..]; cbn; congruence.
  - intros s'. destruct (fst (acquire_token a b c s)) as [p | e' |];
      [destruct (getitem (fst p) "access_token") as [tok | e' |]|..];
      try discriminate.
    intros [= <-]. split; [now exists tok|].
    unfold logged. cbn. now destruct (_enable_logging (self s)).
  - intros resp rest tok Hp Hg.
    destruct (acquire_token_outcome a b c s resp rest tok Hp Hg) as (p & -> & ->).
    eexists. split; reflexivity.
Qed.

Lemma refresh_token_replaces_token_only_witness :
  _token (self (snd (_refresh_token "app" "secret" "tenant" managed_state)))
  = _token (self managed_state)
  /\ exists s', _refresh_token "app" "secret" "tenant"
                  (state_with [token_response "T1"]) = (Ok tt, s')
                /\ _token (self s') = JStr "T1".
Proof.
  split.
  - exact (f_equal _token
             (proj1 (refresh_token_replaces_token_only
                       "app" "secret" "tenant" managed_state)
                (ClientError "Cannot connect to host") eq_refl)).
  - apply (proj2 (proj2 (refresh_token_replaces_token_only
                           "app" "secret" "tenant" (state_with [token_response "T1"])))
             (token_response "T1") [] (JStr "T1")); [reflexivity|].
    split; [left; reflexivity|]. eexists. split; reflexivity.
Defined.

(** What [manage_token] does on a client that is not managed. *)
Lemma manage_token_cases (a b c : string) (s : state) :
  _managed (self s) = false ->
  manage_token a b c s
  = match _refresh_token a b c s with
    | (Ok _, s1) =>
        (Ok tt, {| self := managing (self s) (_token (self s1)) (a, b, c);
                   env := env s1 |})
    | (Raise e, s1) =>
        (Raise (GraphClientExceptionFrom e),
         {| self := self s1; env := logged (self s1) (failure_record e) (env s1) |})
    | (NotModelled, s1) => (NotModelled, s1)
    end.
Proof.
  intros Hm. unfold manage_token, bindM at 1, get_self. rewrite Hm.
  unfold try_except, bindM at 1.
  pose proof (refresh_token_cases a b c s) as Hr.
  destruct (_refresh_token a b c s) as [[[] | e |] s1].
  - assert (Hself : exists tok, self s1 = holding (self s) tok).
    { destruct (fst (acquire_token a b c s)) as [p | e' |];
        [destruct (getitem (fst p) "access_token") as [tok | e' |]|..];
        try discriminate.
      injection Hr as ->. now exists tok. }
    destruct Hself as (tok & Hself).
    unfold bindM, get_self, add_job, start, set_managed, put_self, managing. cbn.
    rewrite Hself. reflexivity.
  - unfold bindM, _log, raise, logged, failure_record.
    destruct s1 as [c1 w1]. cbn. now destruct (_enable_logging c1).
  - reflexivity.
Qed.

(** X11: when [manage_token] fails on a client that is not managed, the
    client object is as it was before the call: not managed, with the
    token, the interval and the scheduler from before.  The exception is a
    [GraphClientException] around the exception of the refresh, and the
    log gets one record of level ERROR about it if the client logs. *)
Theorem manage_token_failure_changes_nothing (a b c : string) (s : state) (e : exn) :
  _managed (self s) = false ->
  fst (manage_token a b c s) = Raise e ->
  let s' := snd (manage_token a b c s) in
  self s' = self s
  /\ exists cause,
      e = GraphClientExceptionFrom cause
      /\ fst (_refresh_token a b c s) = Raise cause
      /\ env s' = logged (self s) (failure_record cause)
                    (env (after_request (token_request a b c) s)).
Proof.
  intros Hm. rewrite (manage_token_cases a b c s Hm), refresh_token_cases.
  destruct (fst (acquire_token a b c s)) as [p | e' |];
    [destruct (getitem (fst p) "access_token") as [tok | e' |]|..];
    cbn; try discriminate; intros [= <-]; (split; [reflexivity|]);
    exists e'; repeat split.
Qed.

Lemma manage_token_failure_changes_nothing_witness :
  let s := logging_state [refusal] in
  let s' := snd (manage_token "app" "wrong" "tenant" s) in
  self s' = self s
  /\ log (env s')
     = [failure_record
          (ApiError Unauthorized (PJson (JObj [("error", JStr "invalid_client")]))
             [("Content-Type", "application/json")])].
Proof.
  intros s s'.
  destruct (manage_token_failure_changes_nothing "app" "wrong" "tenant" s
              (GraphClientExceptionFrom
                 (ApiError Unauthorized (PJson (JObj [("error", JStr "invalid_client")]))
                    [("Content-Type", "application/json")]))
              eq_refl eq_refl) as (Hself & cause & Hc & Hr & Henv).
  split; [exact Hself|].
  injection Hc as <-. subst s'. rewrite Henv. reflexivity.
Defined.

(** X12: on a client that is not managed, with a response that carries a
    token, [manage_token] returns; the client then holds that token, is
    managed, has its scheduler running with one job more, for the same
    credentials and with the interval the client had at the call, and one
    request was sent. *)
Theorem manage_token_success (a b c : string) (s : state)
        (resp : response) (rest : list response) (tok : json) :
  _managed (self s) = false ->
  pending (env s) = resp :: rest ->
  grants resp tok ->
  manage_token a b c s
  = (Ok tt,
     {| self := managing (self s) tok (a, b, c);
        env := logged (self s) refreshed_record
                 (env (after_request (token_request a b c) s)) |}).
Proof.
  intros Hm Hp Hg. rewrite (manage_token_cases a b c s Hm), refresh_token_cases.
  destruct (acquire_token_outcome a b c s resp rest tok Hp Hg) as (p & -> & ->).
  reflexivity.
Qed.

Lemma manage_token_success_witness :
  self managed_state = managing fresh (JStr "T0") ("app", "secret", "tenant")
  /\ jobs (_scheduler (self managed_state))
     = [{| job_args := ("app", "secret", "tenant"); seconds := 3300 |}].
Proof.
  assert (H : manage_token "app" "secret" "tenant" (state_with [token_response "T0"])
              = (Ok tt,
                 {| self := managing fresh (JStr "T0") ("app", "secret", "tenant");
                    env := logged fresh refreshed_record
                             (env (after_request (token_request "app" "secret" "tenant")
                                     (state_with [token_response "T0"]))) |})).
  { apply (manage_token_success "app" "secret" "tenant" (state_with [token_response "T0"])
             (token_response "T0") [] (JStr "T0")); [reflexivity | reflexivity |].
    split; [left; reflexivity|]. eexists. split; reflexivity. }
  unfold managed_state. change {| self := fresh; env := world_with [token_response "T0"] |}
    with (state_with [token_response "T0"]). rewrite H. split; reflexivity.
Defined.

Lemma set_interval_inversion (v : Z) (s s1 : state) :
  set_token_refresh_interval_sec v s = (Ok tt, s1) ->
  _token_refresh_interval_sec (self s1) = v
  /\ _scheduler (self s1) = _scheduler (self s)
  /\ _managed (self s1) = _managed (self s).
Proof.
  unfold set_token_refresh_interval_sec.
  destruct ((v <? 60) || (v >? 3600)); [discriminate|].
  intros [= <-]. repeat split.
Qed.

Lemma manage_token_inversion (a b c : string) (s s2 : state) :
  manage_token a b c s = (Ok tt, s2) ->
  exists tok, self s2 = managing (self s) tok (a, b, c).
Proof.
  intros H. destruct (_managed (self s)) eqn:Hm.
  - rewrite (manage_token_when_managed a b c s Hm) in H. discriminate H.
  - rewrite (manage_token_cases a b c s Hm), refresh_token_cases in H.
    destruct (fst (acquire_token a b c s)) as [p | e' |];
      [destruct (getitem (fst p) "access_token") as [tok | e' |]|..];
      try discriminate.
    injection H as <-. now exists tok.
Qed.

(** X13: the refresh job takes its interval when [manage_token] is called.
    An interval assigned before the call is the one of the job; an
    interval assigned after the call changes the stored value and leaves
    the scheduler and its jobs as they are. *)
Theorem interval_fixed_at_manage (a b c : string) (v : Z) (s s1 s2 : state) :
  set_token_refresh_interval_sec v s = (Ok tt, s1) ->
  manage_token a b c s1 = (Ok tt, s2) ->
  jobs (_scheduler (self s2))
  = jobs (_scheduler (self s)) ++ [{| job_args := (a, b, c); seconds := v |}]
  /\ forall v' s3,
      set_token_refresh_interval_sec v' s2 = (Ok tt, s3) ->
      _token_refresh_interval_sec (self s3) = v'
      /\ _scheduler (self s3) = _scheduler (self s2).
Proof.
  intros Hset Hmanage.
  destruct (set_interval_inversion v s s1 Hset) as (Hv & Hsched & _).
  destruct (manage_token_inversion a b c s1 s2 Hmanage) as (tok & Hself).
  split.
  - rewrite Hself. cbn. now rewrite Hv, Hsched.
  - intros v' s3 H3. destruct (set_interval_inversion v' s2 s3 H3) as (? & ? & _).
    now split.
Qed.

Lemma interval_fixed_at_manage_witness :
  jobs (_scheduler (self tuned_managed_state))
  = [{| job_args := ("app", "secret", "tenant"); seconds := 600 |}].
Proof.
  exact (proj1 (interval_fixed_at_manage "app" "secret" "tenant" 600
                  (state_with [token_response "T0"]) tuned_state tuned_managed_state
                  eq_refl eq_refl)).
Defined.

(** *** The decorator *)

Lemma authorized_runs {A : Type} (func : kwargs -> M A) (kw : kwargs) (s : state)
      (h : gmap string string) :
  token_available (self s) kw ->
  request_headers (self s) kw = Ok h ->
  authorized func kw s = func (with_req_headers kw h) s.
Proof.
  intros Havailable Hheaders. unfold authorized, bindM, get_self, lift.
  replace (negb (truthy (_token (self s))) && negb (truthy (token kw))) with false
    by (destruct Havailable as [-> | ->]; [|rewrite andb_false_r]; reflexivity).
  now rewrite Hheaders.
Qed.

(** X14: once [manage_token] has gone through with a token that is a
    string and not empty, an operation under the decorator runs without a
    token of its own: it is called with the caller's keyword arguments
    and, under [_req_headers], the headers made from the managed token. *)
Theorem managed_token_is_used {A : Type} (func : kwargs -> M A) (kw : kwargs)
        (a b c : string) (s : state)
        (resp : response) (rest : list response) (t : string) :
  _managed (self s) = false ->
  pending (env s) = resp :: rest ->
  grants resp (JStr t) ->
  t <> "" ->
  token kw = None ->
  let s1 := snd (manage_token a b c s) in
  exists h, authorized func kw s1 = func (handed_on kw h) s1
            /\ forall k, h !! k = header_for t (extra_of kw) k.
Proof.
  intros Hm Hp Hg Ht Hkw s1. subst s1.
  rewrite (manage_token_cases a b c s Hm), refresh_token_cases.
  destruct (acquire_token_outcome a b c s resp rest (JStr t) Hp Hg) as (p & -> & ->).
  cbn [snd self _token holding].
  set (s1 := {| self := managing (self s) (JStr t) (a, b, c); env := _ |}).
  assert (Hchoose : choose_token (self s1) kw = JStr t)
    by (unfold choose_token; now rewrite Hkw).
  destruct (request_headers_lookup (self s1) kw t Hchoose) as (h & Hh & Hk).
  exists h. split; [|exact Hk].
  change (handed_on kw h) with (with_req_headers kw h).
  apply authorized_runs; [|exact Hh].
  left. cbn. destruct t; [contradiction|reflexivity].
Qed.

Lemma managed_token_is_used_witness :
  exists h,
    authorized always_get no_kwargs managed_state
    = always_get
        {| token := None; extra_headers := None; expected_statuses := None;
           odata_query := None; _req_headers := Some h |}
        managed_state
    /\ h !! "authorization" = Some "bearer T0".
Proof.
  destruct (managed_token_is_used always_get no_kwargs "app" "secret" "tenant"
              (state_with [token_response "T0"]) (token_response "T0") [] "T0")
    as (h & Hrun & Hk).
  - reflexivity.
  - reflexivity.
  - split; [left; reflexivity|]. eexists. split; reflexivity.
  - discriminate.
  - reflexivity.
  - exists h. split; [exact Hrun|]. rewrite Hk. reflexivity.
Defined.

(** X15: the decorator applied twice does what it does applied once, for
    every operation, every keyword arguments and every state.  This is what
    happens when [list_all_users] calls [list_users_bulk] with the keyword
    arguments it got from the decorator. *)
Theorem authorized_twice {A : Type} (func : kwargs -> M A) (kw : kwargs) (s : state) :
  authorized (authorized func) kw s = authorized func kw s.
Proof.
  unfold authorized at 1 3, bindM at 1 3, get_self.
  destruct (negb (truthy (_token (self s))) && negb (truthy (token kw))) eqn:Hcheck;
    [reflexivity|].
  unfold bindM, lift. destruct (request_headers (self s) kw) as [h | e |] eqn:Hh;
    [|reflexivity..].
  unfold authorized, bindM, get_self, lift.
  change (token (with_req_headers kw h)) with (token kw). rewrite Hcheck.
  change (request_headers (self s) (with_req_headers kw h))
    with (request_headers (self s) kw).
  now rewrite Hh.
Qed.

(** X16: for a token that is a string, the header [_build_auth_header]
    makes has the one key [authorization]; its value begins with [bearer]
    in some case, and given back as a token it comes out unchanged. *)
Theorem auth_header_is_bearer (t : string) :
  exists v, _build_auth_header (JStr t) = Ok {[ "authorization" := v ]}
            /\ Str.startswith (Str.lower v) "bearer" = true
            /\ _build_auth_header (JStr v) = Ok {[ "authorization" := v ]}.
Proof.
  unfold _build_auth_header.
  destruct (Str.startswith (Str.lower t) "bearer") eqn:E.
  - exists t. rewrite E. repeat split.
  - exists ("bearer " +:+ t).
    assert (Hb : Str.startswith (Str.lower ("bearer " +:+ t)) "bearer" = true)
      by reflexivity.
    rewrite Hb. repeat split.
Qed.

(** *** URLs and endpoints *)

Lemma add_resources_extends (url_ : string) (resources : list (string * option string)) :
  exists rest, add_resources url_ resources = url_ +:+ rest.
Proof.
  revert url_. induction resources as [|[resource id] resources IH]; intros url_.
  - exists "". now rewrite append_nil_r.
  - cbn [add_resources].
    destruct id as [id|]; [destruct (truthy id)|];
      match goal with
      | |- exists rest, add_resources ?u resources = _ =>
          destruct (IH u) as (rest & ->)
      end; eexists; rewrite ?append_assoc; reflexivity.
Qed.

(** X17: a URL that [_build_url] returns begins with the base URL and the
    version; with a query, it is the URL the same call returns without the
    query followed by the string of the query.  Without a query the call
    always returns. *)
Theorem build_url_shape `{Constants} (version : string)
        (resources : list (string * option string)) :
  (exists rest, _build_url version resources None
                = Ok (GRAPH_BASE_URL +:+ version +:+ rest))
  /\ (forall q url_,
         _build_url version resources (Some q) = Ok url_ ->
         exists plain qs,
           _build_url version resources None = Ok plain
           /\ ODataQuery___str__ q = Ok qs
           /\ url_ = plain +:+ qs).
Proof.
  unfold _build_url. split.
  - destruct (add_resources_extends (GRAPH_BASE_URL +:+ version) resources)
      as (rest & ->).
    exists rest. now rewrite append_assoc.
  - intros q url_. destruct (ODataQuery___str__ q) as [qs | e |]; try discriminate.
    cbn [bind]. intros [= <-]. eexists _, qs. repeat split.
Qed.

Lemma build_url_shape_witness :
  exists plain qs,
    @_build_url graph_constants "v1.0" [("/users", Some "42"); ("/messages", None)] None
    = Ok plain
    /\ ODataQuery___str__ top_50 = Ok qs
    /\ "https://graph.microsoft.com/v1.0/users/42/messages?$top=50" = plain +:+ qs.
Proof.
  exact (proj2 (@build_url_shape graph_constants "v1.0"
                  [("/users", Some "42"); ("/messages", None)])
           top_50 "https://graph.microsoft.com/v1.0/users/42/messages?$top=50" eq_refl).
Defined.

Lemma get_under_decorator `{Constants} (mk_url : kwargs -> result string)
      (kw : kwargs) (s : state) (h : gmap string string) :
  token_available (self s) kw ->
  request_headers (self s) kw = Ok h ->
  authorized (fun kw0 =>
      url_ <~ lift (mk_url kw0);;
      _request "GET" url_ (_req_headers kw0) None (expected_statuses kw0)) kw s
  = match mk_url (with_req_headers kw h) with
    | Ok u => _request "GET" u (Some h) None (expected_statuses kw) s
    | Raise e => (Raise e, s)
    | NotModelled => (NotModelled, s)
    end.
Proof.
  intros Havailable Hheaders. rewrite (authorized_runs _ kw s h Havailable Hheaders).
  unfold bindM, lift. now destruct (mk_url (with_req_headers kw h)).
Qed.

(** X18: with a token at hand, [list_users_bulk] sends one GET to the base
    URL, the version and the users resource followed by the string of the
    query.  A query object is never skipped: for one that serializes to the
    sentinel, the sentinel is the end of the URL. *)
Theorem list_users_bulk_url `{Constants} (kw : kwargs) (s : state)
        (h : gmap string string) (q : ODataQuery) (qs : string) :
  token_available (self s) kw ->
  request_headers (self s) kw = Ok h ->
  odata_query kw = Some q ->
  ODataQuery___str__ q = Ok qs ->
  sent (env (snd (list_users_bulk kw s)))
  = sent (env s) ++ [get_request h (GRAPH_BASE_URL +:+ V1_EP +:+ USERS +:+ qs)].
Proof.
  intros Havailable Hheaders Hq Hqs. unfold list_users_bulk.
  rewrite (get_under_decorator _ kw s h Havailable Hheaders).
  cbn [odata_query with_req_headers]. rewrite Hq. unfold _build_url. rewrite Hqs.
  cbn [bind add_resources]. rewrite request_state. cbn.
  now rewrite !append_assoc.
Qed.

Lemma list_users_bulk_url_witness :
  map url (sent (env (snd (@list_users_bulk graph_constants
                             (with_query "abc" ODataQuery___init__) (state_with [])))))
  = ["https://graph.microsoft.com/v1.0/usersEMPTY OPEN DATA QUERY"].
Proof.
  rewrite (@list_users_bulk_url graph_constants
             (with_query "abc" ODataQuery___init__) (state_with [])
             (<[ "Content-type" := "application/json" ]> {[ "authorization" := "bearer abc" ]})
             ODataQuery___init__ EMPTY_QUERY).
  - reflexivity.
  - right; reflexivity.
  - reflexivity.
  - reflexivity.
  - reflexivity.
Defined.

(** X19: a user id that is the empty string adds no segment to the URL:
    [get_user] with it does what [list_users_bulk] does, for all keyword
    arguments and states.  With another id and no query, the request goes
    to the users resource followed by a slash and the id. *)
Theorem get_user_empty_id `{Constants} (kw : kwargs) (s : state) :
  get_user "" kw s = list_users_bulk kw s
  /\ forall user_id h,
      user_id <> "" ->
      token_available (self s) kw ->
      request_headers (self s) kw = Ok h ->
      odata_query kw = None ->
      sent (env (snd (get_user user_id kw s)))
      = sent (env s)
        ++ [get_request h (GRAPH_BASE_URL +:+ V1_EP +:+ USERS +:+ "/" +:+ user_id)].
Proof.
  split; [reflexivity|].
  intros user_id h Hid Havailable Hheaders Hq. unfold get_user.
  rewrite (get_under_decorator _ kw s h Havailable Hheaders).
  cbn [odata_query with_req_headers]. rewrite Hq. unfold _build_url.
  cbn [add_resources].
  replace (truthy user_id) with true by (destruct user_id; [contradiction|reflexivity]).
  rewrite request_state. cbn. now rewrite !append_assoc.
Qed.

Lemma get_user_empty_id_witness :
  map url (sent (env (snd (@get_user graph_constants "42" (with_token "abc" None)
                             (state_with [not_found_response])))))
  = ["https://graph.microsoft.com/v1.0/users/42"].
Proof.
  rewrite (proj2 (@get_user_empty_id graph_constants (with_token "abc" None)
                    (state_with [not_found_response]))
             "42"
             (<[ "Content-type" := "application/json" ]> {[ "authorization" := "bearer abc" ]})).
  - reflexivity.
  - discriminate.
  - right; reflexivity.
  - reflexivity.
  - reflexivity.
Defined.

(** X20: a query that does not serialize stops the call before the
    session is used: [list_users_bulk], [get_user] and
    [list_user_mails_bulk] raise the exception of [__str__] and leave the
    state as it was, with no request sent. *)
Theorem unrenderable_query_sends_nothing `{Constants} (kw : kwargs) (s : state)
        (h : gmap string string) (q : ODataQuery) (e : exn) (user_id : string) :
  token_available (self s) kw ->
  request_headers (self s) kw = Ok h ->
  odata_query kw = Some q ->
  ODataQuery___str__ q = Raise e ->
  list_users_bulk kw s = (Raise e, s)
  /\ get_user user_id kw s = (Raise e, s)
  /\ list_user_mails_bulk user_id kw s = (Raise e, s).
Proof.
  intros Havailable Hheaders Hq He.
  unfold list_users_bulk, get_user, list_user_mails_bulk.
  rewrite !(get_under_decorator _ kw s h Havailable Hheaders).
  cbn [odata_query with_req_headers]. rewrite Hq. unfold _build_url. rewrite He.
  repeat split.
Qed.

Lemma unrenderable_query_sends_nothing_witness :
  @list_users_bulk graph_constants (with_query "abc" unconnected)
    (state_with [ok_response])
  = (Raise (AttributeError "'NoneType' object has no attribute 'name'"),
     state_with [ok_response]).
Proof.
  apply (proj1 (@unrenderable_query_sends_nothing graph_constants
                  (with_query "abc" unconnected) (state_with [ok_response])
                  (<[ "Content-type" := "application/json" ]>
                     {[ "authorization" := "bearer abc" ]})
                  unconnected
                  (AttributeError "'NoneType' object has no attribute 'name'") ""
                  (or_intror eq_refl) eq_refl eq_refl eq_refl)).
Defined.

(** X21: [delete_subscription] builds its URL without the keyword
    arguments.  With a token at hand and an id that is not empty it sends
    one DELETE to the subscriptions resource followed by a slash and the
    id, whatever query the keyword arguments hold, also one that does not
    serialize; the query changes nothing of what the call does. *)
Theorem delete_subscription_ignores_query `{Constants} `{SubscriptionConstants}
        (subscription_id : string) (kw : kwargs) (s : state) (h : gmap string string) :
  subscription_id <> "" ->
  token_available (self s) kw ->
  request_headers (self s) kw = Ok h ->
  sent (env (snd (delete_subscription subscription_id kw s)))
  = sent (env s)
    ++ [request_of "DELETE"
          (GRAPH_BASE_URL +:+ V1_EP +:+ SUBSCRIPTIONS +:+ "/" +:+ subscription_id)
          (Some h) None]
  /\ forall q, delete_subscription subscription_id (set_query kw q) s
               = delete_subscription subscription_id kw s.
Proof.
  intros Hid Havailable Hheaders. split; [|reflexivity].
  unfold delete_subscription.
  rewrite (authorized_runs _ kw s h Havailable Hheaders).
  unfold bindM at 1, lift, _build_url. cbn [add_resources].
  replace (truthy subscription_id) with true
    by (destruct subscription_id; [contradiction|reflexivity]).
  rewrite request_state. cbn. now rewrite !append_assoc.
Qed.

Lemma delete_subscription_ignores_query_witness :
  map (fun r => (method r, url r))
      (sent (env (snd (@delete_subscription graph_constants subscription_constants
                         "s-1" (with_query "abc" unconnected) (state_with [])))))
  = [("DELETE", "https://graph.microsoft.com/v1.0/subscriptions/s-1")].
Proof.
  rewrite (proj1 (@delete_subscription_ignores_query graph_constants subscription_constants
                    "s-1" (with_query "abc" unconnected) (state_with [])
                    (<[ "Content-type" := "application/json" ]>
                       {[ "authorization" := "bearer abc" ]})
                    ltac:(discriminate) (or_intror eq_refl) eq_refl)).
  reflexivity.
Defined.

(** *** The paginated sequences, further *)

Section MorePages.
Context `{Constants}.
Variables (kw : kwargs) (h : gmap string string) (s : state).
Hypothesis Havailable : token_available (self s) kw.
Hypothesis Hheaders : request_headers (self s) kw = Ok h.

(** The request for a page and the reading of the page, by what comes
    back. *)
Lemma page_request (mk_url : kwargs -> result string) (u : string)
      (resp : response) (rest : list response) :
  mk_url (with_req_headers kw h) = Ok u ->
  pending (env s) = resp :: rest ->
  let run :=
    bindM (authorized (fun kw0 =>
             url_ <~ lift (mk_url kw0);;
             _request "GET" url_ (_req_headers kw0) None (expected_statuses kw0))
             (with_req_headers kw h))
          (fun p0 => open_page (fst p0) (with_req_headers kw h)) s in
  (forall its n,
      serves (expected_statuses kw) resp its n ->
      run = (Ok (Fetched, Suspended its n (with_req_headers kw h)),
             after_request (get_request h u) s))
  /\ (forall r,
         read_payload resp = Ok r ->
         ~ In (status resp) (expected_or_default (expected_statuses kw)) ->
         run = (Raise (ApiError (exception_for (status resp)) r (resp_hdrs resp)),
                after_request (get_request h u) s)).
Proof.
  intros Hu Hp run. subst run. cbv beta.
  assert (Hget : authorized (fun kw0 =>
             url_ <~ lift (mk_url kw0);;
             _request "GET" url_ (_req_headers kw0) None (expected_statuses kw0))
             (with_req_headers kw h) s
           = _request "GET" u (Some h) None (expected_statuses kw) s).
  { rewrite (get_under_decorator mk_url (with_req_headers kw h) s h).
    - change (with_req_headers (with_req_headers kw h) h) with (with_req_headers kw h).
      now rewrite Hu.
    - destruct Havailable as [Ht | Ht]; [left | right]; exact Ht.
    - exact Hheaders. }
  split; [intros its n (Hst & r & Hr & Hn & Hv) | intros r Hr Hnin];
    unfold bindM at 1; rewrite Hget;
    rewrite (surjective_pairing
               (_request "GET" u (Some h) None (expected_statuses kw) s));
    rewrite request_state, (request_outcome _ _ _ _ _ _ _ _ Hp);
    fold (get_request h u); rewrite Hr; cbn [bind].
  - 
    rewrite (existsb_expected _ _ Hst).
    unfold open_page, bindM, lift, ret. cbn [fst]. now rewrite Hn, Hv.
  - destruct (existsb _ _) eqn:E; [|reflexivity].
    exfalso. apply Hnin. apply existsb_exists in E. destruct E as (x & Hx & Heq).
    apply Z.eqb_eq in Heq. subst x.
    destruct (expected_statuses kw) as [[|y l]|]; exact Hx.
Qed.

End MorePages.

(** X22: when the fetch of the next page comes back with a status that is
    not expected, the items that were left of the page before are yielded
    first, in order; then the run ends with the error of the status, which
    holds the payload and the headers of the response, after one request.
    The generator is finished by it: a later step yields nothing, raises
    nothing and sends nothing. *)
Theorem page_error_reaches_consumer `{Constants}
        (kw : kwargs) (h : gmap string string) (s : state)
        (its : list json) (u : string)
        (resp : response) (rest : list response) (r : payload) (extra : nat) :
  token_available (self s) kw ->
  request_headers (self s) kw = Ok h ->
  u <> "" ->
  pending (env s) = resp :: rest ->
  read_payload resp = Ok r ->
  ~ In (status resp) (expected_or_default (expected_statuses kw)) ->
  let e := ApiError (exception_for (status resp)) r (resp_hdrs resp) in
  async_for (S (length its) + extra) list_all_users_step
    (Suspended its (JStr u) (with_req_headers kw h)) s
  = (map Yielded its, Failed e, after_request (get_request h u) s)
  /\ list_all_users_step (Suspended [] (JStr u) (with_req_headers kw h)) s
     = (Raise e, Closed, after_request (get_request h u) s)
  /\ forall s0, list_all_users_step Closed s0 = (Ok Stopped, Closed, s0).
Proof.
  intros Havailable Hheaders Hu Hp Hr Hnin e.
  assert (Hstep : list_all_users_step (Suspended [] (JStr u) (with_req_headers kw h)) s
                  = (Raise e, Closed, after_request (get_request h u) s)).
  { unfold list_all_users_step, step, body_step.
    replace (truthy (JStr u)) with true by (destruct u; [contradiction|reflexivity]).
    unfold list_more_users.
    now rewrite (proj2 (page_request kw h s Havailable Hheaders
                          (fun _ => url_of (JStr u)) u resp rest eq_refl Hp) r Hr Hnin). }
  split; [|split; [exact Hstep | reflexivity]].
  replace (S (length its) + extra)%nat with (length its + S extra)%nat by lia.
  change list_all_users_step
    with (pages_step (fun kw0 => _build_url V1_EP [(USERS, None)] (odata_query kw0))).
  rewrite run_yields. cbn [async_for].
  change (pages_step (fun kw0 => _build_url V1_EP [(USERS, None)] (odata_query kw0)))
    with list_all_users_step.
  rewrite Hstep. now rewrite app_nil_r.
Qed.

Lemma page_error_reaches_consumer_witness :
  async_for 3 (@list_all_users_step graph_constants)
    (Suspended [user 1; user 2] (JStr "https://graph.microsoft.com/v1.0/users?$skiptoken=A")
       (with_req_headers caller_kwargs
          (<[ "Content-type" := "application/json" ]> {[ "authorization" := "bearer abc" ]})))
    (state_with [server_error_response])
  = ([Yielded (user 1); Yielded (user 2)],
     Failed (ApiError ServerError (PBytes "<html>Internal Server Error</html>")
               [("Content-Type", "text/html")]),
     after_request
       (get_request
          (<[ "Content-type" := "application/json" ]> {[ "authorization" := "bearer abc" ]})
          "https://graph.microsoft.com/v1.0/users?$skiptoken=A")
       (state_with [server_error_response])).
Proof.
  refine (proj1 (@page_error_reaches_consumer graph_constants caller_kwargs
                   (<[ "Content-type" := "application/json" ]>
                      {[ "authorization" := "bearer abc" ]})
                   (state_with [server_error_response])
                   [user 1; user 2] "https://graph.microsoft.com/v1.0/users?$skiptoken=A"
                   server_error_response []
                   (PBytes "<html>Internal Server Error</html>") 0%nat
                   (or_intror eq_refl) eq_refl _ eq_refl eq_refl _)).
  - discriminate.
  - cbn. intros [H0 | [H0 | [H0 | []]]]; discriminate H0.
Defined.

(** X23: the sequence goes on only while the continuation field is true.
    A first page whose field holds a false value (the empty string, zero,
    [False], an empty list or dict, or nothing) is the last one: the run
    yields its items in order and ends, with the one request for that
    page. *)
Theorem false_continuation_ends_sequence `{Constants}
        (kw : kwargs) (h : gmap string string) (s : state) (url0 : string)
        (resp : response) (rest : list response)
        (its : list json) (n : json) (extra : nat) :
  token_available (self s) kw ->
  request_headers (self s) kw = Ok h ->
  _build_url V1_EP [(USERS, None)] (odata_query kw) = Ok url0 ->
  pending (env s) = resp :: rest ->
  serves (expected_statuses kw) resp its n ->
  truthy n = false ->
  async_for (S (S (length its)) + extra) list_all_users_step
    (Created (with_req_headers kw h)) s
  = (Fetched :: map Yielded its, Exhausted, after_request (get_request h url0) s).
Proof.
  intros Havailable Hheaders Hurl Hp Hserves Hn.
  replace (S (S (length its)) + extra)%nat with (S (length its + S extra))%nat by lia.
  cbn [async_for].
  assert (Hstep : list_all_users_step (Created (with_req_headers kw h)) s
                  = (Ok Fetched, Suspended its n (with_req_headers kw h),
                     after_request (get_request h url0) s)).
  { unfold list_all_users_step, step, body_step, list_users_bulk.
    now rewrite (proj1 (page_request kw h s Havailable Hheaders
                          (fun kw0 => _build_url V1_EP [(USERS, None)] (odata_query kw0))
                          url0 resp rest Hurl Hp) its n Hserves). }
  rewrite Hstep.
  change list_all_users_step
    with (pages_step (fun kw0 => _build_url V1_EP [(USERS, None)] (odata_query kw0))).
  rewrite run_yields. cbn [async_for].
  unfold pages_step, step, body_step. rewrite Hn. unfold ret.
  now rewrite app_nil_r.
Qed.

Lemma false_continuation_ends_sequence_witness :
  async_for 4 (@list_all_users_step graph_constants)
    (Created (with_req_headers caller_kwargs
                (<[ "Content-type" := "application/json" ]>
                   {[ "authorization" := "bearer abc" ]})))
    (state_with [last_page_response; ok_response])
  = ([Fetched; Yielded (user 1); Yielded (user 2)], Exhausted,
     after_request
       (get_request
          (<[ "Content-type" := "application/json" ]> {[ "authorization" := "bearer abc" ]})
          "https://graph.microsoft.com/v1.0/users")
       (state_with [last_page_response; ok_response])).
Proof.
  refine (@false_continuation_ends_sequence graph_constants caller_kwargs
            (<[ "Content-type" := "application/json" ]> {[ "authorization" := "bearer abc" ]})
            (state_with [last_page_response; ok_response])
            "https://graph.microsoft.com/v1.0/users"
            last_page_response [ok_response] [user 1; user 2] (JStr "") 0%nat
            (or_intror eq_refl) eq_refl eq_refl eq_refl _ eq_refl).
  split; [left; reflexivity|]. eexists. repeat split.
Defined.

End ClientExtras.
